(** * EditScheduleModal: the schedule-entry dialog of projetor

    A shallow embedding of
    [client/src/components/schedule/EditScheduleModal.tsx].

    The component is a React function component.  Its local state is the
    [selectedActivity] cell of [useState], the value store and the
    [formState] of react-hook-form's [useForm], and the [data] of
    [useQuery].  Everything the component does to its parent goes through
    the two callbacks [onSave] and [onClose]; they are modelled as the
    output of a step function, so that a run of the dialog yields the list
    of calls in the order they were made.

    Numbers are taken to be integers ([Z]); [console.log] is left out. *)

From stdpp Require Import base strings list gmap.
From Stdlib Require Import ZArith Ascii.

Local Open Scope string_scope.

(** ** JavaScript values the component handles *)

(** An object passed as a prop.  React compares effect dependencies with
    [Object.is], that is by identity for objects, so every object carries
    the address it lives at next to its fields. *)
Record Obj (A : Type) := mkObj { addr : nat; fields : A }.
Arguments mkObj {A} _ _.
Arguments addr {A} _.
Arguments fields {A} _.

(** [Object.is] on a prop of type [T | null] (or [T | undefined]). *)
Definition objectIs {A : Type} (x y : option (Obj A)) : bool :=
  match x, y with
  | None, None => true
  | Some a, Some b => Nat.eqb (addr a) (addr b)
  | _, _ => false
  end.

(** [x?.f] for a nullable object [x]. *)
Definition optChain {A B : Type} (x : option (Obj A)) (f : A -> B) : option B :=
  match x with
  | Some o => Some (f (fields o))
  | None => None
  end.

(** [x || d] on a possibly undefined string: the empty string is falsy. *)
Definition orStr (x : option string) (d : string) : string :=
  match x with
  | Some s => if String.eqb s "" then d else s
  | None => d
  end.

(** [x || d] on a possibly undefined number: zero is falsy. *)
Definition orNum (x : option Z) (d : Z) : Z :=
  match x with
  | Some n => if Z.eqb n 0 then d else n
  | None => d
  end.

(** ** Props *)

Module TimeSlot.
Record t := mk { startTime : string; endTime : string }.
End TimeSlot.

Module Professional.
Record t := mk { id : Z; nome : string; iniciais : string }.
End Professional.

Module CurrentActivity.
Record t := mk {
  id : option Z;
  atividade : string;
  local : option string;
  observacoes : option string
}.
End CurrentActivity.

(** [EditScheduleModalProps] without the two callbacks.  [WeekDay] is a
    string at run time; [isNew] is optional. *)
Record Props := mkProps {
  isOpen : bool;
  professional : option (Obj Professional.t);
  timeSlot : option (Obj TimeSlot.t);
  currentActivity : option (Obj CurrentActivity.t);
  weekday : string;
  isNew : option bool
}.

(** The default of the destructuring pattern, [isNew = false]. *)
Definition isNewOrDefault (p : Props) : bool :=
  match isNew p with
  | Some b => b
  | None => false
  end.

(** ** Form values *)

Module Form.
(** [ScheduleFormValues], the values held by [useForm]. *)
Record t := mk {
  professionalId : Z;
  weekday : string;
  startTime : string;
  endTime : string;
  activityCode : string;
  location : string;
  notes : string
}.

(** The object spread [{...data, activityCode: v}]. *)
Definition withActivityCode (data : t) (v : string) : t :=
  mk (professionalId data) (weekday data) (startTime data) (endTime data)
     v (location data) (notes data).
End Form.

(** The fields the user can type into: the two time inputs, the location
    input and the notes text area. *)
Inductive Field := FStartTime | FEndTime | FLocation | FNotes.

Definition fieldName (f : Field) : string :=
  match f with
  | FStartTime => "startTime"
  | FEndTime => "endTime"
  | FLocation => "location"
  | FNotes => "notes"
  end.

Definition setField (f : Field) (v : string) (d : Form.t) : Form.t :=
  match f with
  | FStartTime =>
      Form.mk (Form.professionalId d) (Form.weekday d) v (Form.endTime d)
              (Form.activityCode d) (Form.location d) (Form.notes d)
  | FEndTime =>
      Form.mk (Form.professionalId d) (Form.weekday d) (Form.startTime d) v
              (Form.activityCode d) (Form.location d) (Form.notes d)
  | FLocation =>
      Form.mk (Form.professionalId d) (Form.weekday d) (Form.startTime d)
              (Form.endTime d) (Form.activityCode d) v (Form.notes d)
  | FNotes =>
      Form.mk (Form.professionalId d) (Form.weekday d) (Form.startTime d)
              (Form.endTime d) (Form.activityCode d) (Form.location d) v
  end.

(** The sentinel code of the synthetic option. *)
Definition disponivel : string := "disponivel".

(** The initial value of [useState] and the [activityValue] of the effect:
    [currentActivity?.atividade || "disponivel"]. *)
Definition activityValue (p : Props) : string :=
  orStr (optChain (currentActivity p) CurrentActivity.atividade) disponivel.

(** [x?.f] where the field itself is optional. *)
Definition optChainOpt {A B : Type} (x : option (Obj A)) (f : A -> option B)
  : option B :=
  match x with
  | Some o => f (fields o)
  | None => None
  end.

(** The [defaultValues] handed to [useForm]. *)
Definition defaultValues (p : Props) : Form.t :=
  {| Form.professionalId := orNum (optChain (professional p) Professional.id) 0;
     Form.weekday := weekday p;
     Form.startTime := orStr (optChain (timeSlot p) TimeSlot.startTime) "";
     Form.endTime := orStr (optChain (timeSlot p) TimeSlot.endTime) "";
     Form.activityCode :=
       orStr (optChain (currentActivity p) CurrentActivity.atividade) disponivel;
     Form.location := orStr (optChainOpt (currentActivity p) CurrentActivity.local) "";
     Form.notes := orStr (optChainOpt (currentActivity p) CurrentActivity.observacoes) "" |}.

(** The object the effect hands to [reset]. *)
Definition resetValues (p : Props) : Form.t :=
  let activityValue := activityValue p in
  {| Form.professionalId := orNum (optChain (professional p) Professional.id) 0;
     Form.weekday := weekday p;
     Form.startTime := orStr (optChain (timeSlot p) TimeSlot.startTime) "";
     Form.endTime := orStr (optChain (timeSlot p) TimeSlot.endTime) "";
     Form.activityCode := activityValue;
     Form.location := orStr (optChainOpt (currentActivity p) CurrentActivity.local) "";
     Form.notes := orStr (optChainOpt (currentActivity p) CurrentActivity.observacoes) "" |}.

(** ** The activity-type lookup *)

Module ActivityType.
Record t := mk { id : Z; code : string; name : string }.
End ActivityType.

(** What [useQuery] hands back as [data]: nothing while the request is
    pending or after it failed, otherwise whatever the server answered.
    An array is taken to hold activity-type records. *)
Inductive QueryData :=
  | JUndefined
  | JNull
  | JNotArray
  | JArray (l : list ActivityType.t).

(** The destructuring default, [data: activityTypes = []], which applies
    to [undefined] only. *)
Definition activityTypes (data : QueryData) : QueryData :=
  match data with
  | JUndefined => JArray []
  | d => d
  end.

(** ** Validation: zod and the resolver *)

Record ZodIssue := mkIssue { path : string; message : string }.

(** The outcome of parsing with a schema; a failure has an issue. *)
Inductive SafeParse :=
  | Success (data : Form.t)
  | Failure (issue : ZodIssue) (issues : list ZodIssue).

Definition Schema := Form.t -> SafeParse.

(** The [errors] object of react-hook-form, from field name to message. *)
Abbreviation FieldErrors := (gmap string string).

(** The resolver's error object keeps the first issue of each path. *)
Fixpoint toFieldErrors (issues : list ZodIssue) : FieldErrors :=
  match issues with
  | [] => ∅
  | i :: rest =>
      let errs := toFieldErrors rest in
      <[path i := message i]> errs
  end.

Record ResolverResult := mkResult {
  values : option Form.t;
  resolverErrors : FieldErrors
}.

(** [zodResolver(schema)]. *)
Definition zodResolver (schema : Schema) (v : Form.t) : ResolverResult :=
  match schema v with
  | Success data => mkResult (Some data) ∅
  | Failure i rest => mkResult None (toFieldErrors (i :: rest))
  end.

(** ** The component *)

(** The calls the component makes to its parent. *)
Inductive Call :=
  | onSave (data : Form.t)
  | onClose.

(** The state held by the hooks between two renders. *)
Record State := mkState {
  props : Props;
  data : QueryData;
  selectedActivity : string;
  formValues : Form.t;
  errors : FieldErrors;
  isSubmitted : bool
}.

Definition setProps (p : Props) (st : State) : State :=
  mkState p (data st) (selectedActivity st) (formValues st) (errors st)
          (isSubmitted st).

Definition setData (d : QueryData) (st : State) : State :=
  mkState (props st) d (selectedActivity st) (formValues st) (errors st)
          (isSubmitted st).

Definition setSelectedActivity (v : string) (st : State) : State :=
  mkState (props st) (data st) v (formValues st) (errors st) (isSubmitted st).

(** [setValue("activityCode", v)]: writes the store, validates nothing. *)
Definition setValue_activityCode (v : string) (st : State) : State :=
  mkState (props st) (data st) (selectedActivity st)
          (Form.withActivityCode (formValues st) v) (errors st)
          (isSubmitted st).

(** [reset(values)]: replaces the stored values and clears the form state. *)
Definition reset (v : Form.t) (st : State) : State :=
  mkState (props st) (data st) (selectedActivity st) v ∅ false.

(** The dependency array [[isOpen, professional, timeSlot,
    currentActivity, weekday, reset]]; [reset] is stable. *)
Definition depsChanged (old new : Props) : bool :=
  negb (Bool.eqb (isOpen old) (isOpen new)
        && objectIs (professional old) (professional new)
        && objectIs (timeSlot old) (timeSlot new)
        && objectIs (currentActivity old) (currentActivity new)
        && String.eqb (weekday old) (weekday new)).

(** The body of the effect, run with the props of the current render. *)
Definition effect (st : State) : State :=
  if isOpen (props st) then
    let activityValue := activityValue (props st) in
    reset (resetValues (props st)) (setSelectedActivity activityValue st)
  else st.

(** The first render and the effect that follows it. *)
Definition mount (p : Props) (d : QueryData) : State :=
  effect (mkState p d (activityValue p) (defaultValues p) ∅ false).

(** A later render with new props; the effect runs when a dependency
    differs from the one of the previous render. *)
Definition rerender (p : Props) (st : State) : State :=
  if depsChanged (props st) p then effect (setProps p st) else setProps p st.

(** [handleActivityChange]. *)
Definition handleActivityChange (value : string) (st : State) : State :=
  setValue_activityCode value (setSelectedActivity value st).

(** [onSubmit], called by [handleSubmit] with the parsed data. *)
Definition onSubmit (st : State) (data : Form.t) : list Call :=
  let submittedData := Form.withActivityCode data (selectedActivity st) in
  [onSave submittedData; onClose].

(** ** What is rendered *)

Record SelectItem := mkItem { itemValue : string; itemLabel : string }.

(** The children of [SelectContent]: the fixed item, then one item for
    each activity type when the data is an array. *)
Definition selectItems (d : QueryData) : list SelectItem :=
  mkItem disponivel "Disponível" ::
  match activityTypes d with
  | JArray l =>
      map (fun activity =>
             mkItem (ActivityType.code activity) (ActivityType.name activity)) l
  | _ => []
  end.

Record View := mkView {
  dialogOpen : bool;
  title : string;
  shownIniciais : option string;
  shownNome : option string;
  startTimeInput : string;
  startTimeError : option string;
  endTimeInput : string;
  endTimeError : option string;
  selectValue : string;
  items : list SelectItem;
  hiddenActivityCode : string;
  activityCodeError : option string;
  locationInput : string;
  notesInput : string
}.

Definition render (st : State) : View :=
  {| dialogOpen := isOpen (props st);
     title := if isNewOrDefault (props st) then "Nova Atividade" else "Editar Horário";
     shownIniciais := optChain (professional (props st)) Professional.iniciais;
     shownNome := optChain (professional (props st)) Professional.nome;
     startTimeInput := Form.startTime (formValues st);
     startTimeError := errors st !! "startTime";
     endTimeInput := Form.endTime (formValues st);
     endTimeError := errors st !! "endTime";
     selectValue := selectedActivity st;
     items := selectItems (data st);
     hiddenActivityCode := selectedActivity st;
     activityCodeError := errors st !! "activityCode";
     locationInput := Form.location (formValues st);
     notesInput := Form.notes (formValues st) |}.

(** ** Events *)

Inductive Event :=
  | Render (p : Props)            (* the parent renders the dialog again *)
  | QueryResult (d : QueryData)   (* the lookup delivers new data *)
  | Change (f : Field) (v : string) (* the user edits an input *)
  | Select (i : nat)              (* the user picks the i-th item *)
  | Submit                        (* the form is submitted *)
  | Cancel                        (* the Cancelar button *)
  | Dismiss.                      (* the dialog asks to be closed *)

Section Component.

(** [scheduleFormSchema] is declared in [@shared/schema]; the component
    works with whichever schema it is given. *)
Variable schema : Schema.

(** The [onChange] of a registered input.  Before the first submission
    nothing is validated; after it the field is validated again on
    every change and its entry of [errors] is replaced. *)
Definition change (f : Field) (v : string) (st : State) : State :=
  let vals := setField f v (formValues st) in
  let errs :=
    if isSubmitted st then
      match resolverErrors (zodResolver schema vals) !! fieldName f with
      | Some e => <[fieldName f := e]> (errors st)
      | None => delete (fieldName f) (errors st)
      end
    else errors st in
  mkState (props st) (data st) (selectedActivity st) vals errs (isSubmitted st).

(** [handleSubmit(onSubmit)]: the resolver runs on the stored values;
    [onSubmit] is called when it reports no error. *)
Definition handleSubmit (st : State) : State * list Call :=
  let r := zodResolver schema (formValues st) in
  let st' := mkState (props st) (data st) (selectedActivity st)
                     (formValues st) (resolverErrors r) true in
  match values r with
  | Some data =>
      if bool_decide (resolverErrors r = ∅) then (st', onSubmit st data)
      else (st', [])
  | None => (st', [])
  end.

(** One event.  The form is on screen only while the dialog is open. *)
Definition step (st : State) (ev : Event) : State * list Call :=
  match ev with
  | Render p => (rerender p st, [])
  | QueryResult d => (setData d st, [])
  | Change f v =>
      if isOpen (props st) then (change f v st, []) else (st, [])
  | Select i =>
      if isOpen (props st) then
        match selectItems (data st) !! i with
        | Some item => (handleActivityChange (itemValue item) st, [])
        | None => (st, [])
        end
      else (st, [])
  | Submit =>
      if isOpen (props st) then handleSubmit st else (st, [])
  | Cancel =>
      if isOpen (props st) then (st, [onClose]) else (st, [])
  | Dismiss =>
      if isOpen (props st) then (st, [onClose]) else (st, [])
  end.

(** A run: the events in order, the calls in the order they are made. *)
Fixpoint run (st : State) (evs : list Event) : State * list Call :=
  match evs with
  | [] => (st, [])
  | ev :: rest =>
      let (st1, out1) := step st ev in
      let (st2, out2) := run st1 rest in
      (st2, (out1 ++ out2)%list)
  end.

(** The calls made by a dialog mounted with [p] and [d]. *)
Definition calls (p : Props) (d : QueryData) (evs : list Event) : list Call :=
  snd (run (mount p d) evs).

End Component.

(** ** Vocabulary of the properties *)

(** [Array.isArray]. *)
Definition Array_isArray (d : QueryData) : bool :=
  match d with
  | JArray _ => true
  | _ => false
  end.

(** The codes of the activity types the lookup currently provides. *)
Definition liveCodes (d : QueryData) : list string :=
  match activityTypes d with
  | JArray l => map ActivityType.code l
  | _ => []
  end.

(** The activity code the caller passes in, if any. *)
Definition propCodes (p : Props) : list string :=
  match currentActivity p with
  | Some o => [CurrentActivity.atividade (fields o)]
  | None => []
  end.

(** The codes an event brings into the session. *)
Definition eventCodes (ev : Event) : list string :=
  match ev with
  | Render p => propCodes p
  | QueryResult d => liveCodes d
  | _ => []
  end.

(** Every code the dialog has seen in a session: the sentinel, the codes
    passed in as [currentActivity] and the codes delivered by the lookup
    at any time. *)
Definition knownCodes (p : Props) (d : QueryData) (evs : list Event)
  : list string :=
  (disponivel :: propCodes p ++ liveCodes d ++ flat_map eventCodes evs)%list.

(** The codes [K] cover a state: the selected activity, the sentinel and
    the codes on offer are among them. *)
Definition covers (K : list string) (st : State) : Prop :=
  selectedActivity st ∈ K
  ∧ disponivel ∈ K
  ∧ ∀ c, c ∈ liveCodes (data st) -> c ∈ K.

(** Two values of the props that differ at most in [isNew]. *)
Definition sameButIsNew (p q : Props) : Prop :=
  isOpen p = isOpen q
  ∧ professional p = professional q
  ∧ timeSlot p = timeSlot q
  ∧ currentActivity p = currentActivity q
  ∧ weekday p = weekday q.

(** Two events that differ at most in the [isNew] of a render. *)
Inductive sameEvent : Event -> Event -> Prop :=
  | same_render (p q : Props) : sameButIsNew p q -> sameEvent (Render p) (Render q)
  | same_other (ev : Event) : sameEvent ev ev.

(** Two states that differ at most in the [isNew] of their props. *)
Definition sameState (s t : State) : Prop :=
  sameButIsNew (props s) (props t)
  ∧ data s = data t
  ∧ selectedActivity s = selectedActivity t
  ∧ formValues s = formValues t
  ∧ errors s = errors t
  ∧ isSubmitted s = isSubmitted t.

(** A view with its title replaced. *)
Definition withTitle (t : string) (v : View) : View :=
  mkView (dialogOpen v) t (shownIniciais v) (shownNome v)
         (startTimeInput v) (startTimeError v) (endTimeInput v)
         (endTimeError v) (selectValue v) (items v) (hiddenActivityCode v)
         (activityCodeError v) (locationInput v) (notesInput v).

(** The item that is always there. *)
Definition disponivelItem : SelectItem := mkItem disponivel "Disponível".

(** The item of an activity type. *)
Definition itemOf (activity : ActivityType.t) : SelectItem :=
  mkItem (ActivityType.code activity) (ActivityType.name activity).

(** ** The answer of the lookup, whatever its shape *)

(** An element of an array the server answered with, with nothing
    assumed of it.  Reading a property of [null] or of [undefined]
    throws; any other value has the property or gives [undefined].  Of
    an element the list reads [id] (the key), [code] and [name]; the
    last two are rendered. *)
Inductive Element :=
  | ENull
  | EUndefined
  | EValue (code name : option string).

(** What [useQuery] hands back as [data], with nothing assumed of the
    elements of an array. *)
Inductive Answer :=
  | AUndefined
  | ANull
  | ANotArray
  | AArray (l : list Element).

(** A rendered item: its [value] and its label, each possibly
    [undefined]. *)
Record RawItem := mkRaw { rawValue : option string; rawLabel : option string }.

(** The callback of [activityTypes.map]; [None] is the [TypeError] of
    reading [activity.id] on [null] or [undefined]. *)
Definition rawItemOf (activity : Element) : option RawItem :=
  match activity with
  | ENull | EUndefined => None
  | EValue code name => Some (mkRaw code name)
  end.

(** The children of [SelectContent] for any answer; [None] when
    rendering them throws. *)
Definition rawSelectItems (data : Answer) : option (list RawItem) :=
  let activityTypes :=
    match data with
    | AUndefined => AArray []
    | a => a
    end in
  match activityTypes with
  | AArray l =>
      match mapM rawItemOf l with
      | Some rest => Some (mkRaw (Some "disponivel") (Some "Disponível") :: rest)
      | None => None
      end
  | _ => Some [mkRaw (Some "disponivel") (Some "Disponível")]
  end.

(** The answers whose arrays hold activity-type records. *)
Definition answerOf (d : QueryData) : Answer :=
  match d with
  | JUndefined => AUndefined
  | JNull => ANull
  | JNotArray => ANotArray
  | JArray l =>
      AArray (map (fun activity =>
                     EValue (Some (ActivityType.code activity))
                            (Some (ActivityType.name activity))) l)
  end.

Definition rawOf (item : SelectItem) : RawItem :=
  mkRaw (Some (itemValue item)) (Some (itemLabel item)).

(** ** The validation schema *)

(** Modelled from the spec: what its validation rules leave to
    [scheduleFormSchema], which is not among the sources: the weekday
    enumerants, what counts as a time of day, and the message of each
    field. *)
Record SchemaRules := mkRules {
  weekDays : list string;
  timeOfDay : string -> bool;
  messageOf : string -> string
}.

(** A required string is one that is not empty. *)
Definition nonEmpty (s : string) : bool := negb (String.eqb s "").

(** Modelled from the spec: the issues [scheduleFormSchema] raises.  The
    schema is declared in [@shared/schema] and is not among the sources.
    The rules are the ones the specification lists: [professionalId] a
    positive integer, [weekday] one of the enumerants, [startTime] and
    [endTime] required and a time of day, [activityCode] a non-empty
    string, [location] and [notes] unconstrained.  Every rule that fails
    raises an issue on the path of its field. *)
Definition schemaIssues (rules : SchemaRules) (d : Form.t) : list ZodIssue :=
  let check (ok : bool) (field : string) : list ZodIssue :=
    if ok then [] else [mkIssue field (messageOf rules field)] in
  (check (0 <? Form.professionalId d)%Z "professionalId" ++
   check (bool_decide (Form.weekday d ∈ weekDays rules)) "weekday" ++
   check (nonEmpty (Form.startTime d) && timeOfDay rules (Form.startTime d)) "startTime" ++
   check (nonEmpty (Form.endTime d) && timeOfDay rules (Form.endTime d)) "endTime" ++
   check (nonEmpty (Form.activityCode d)) "activityCode")%list.

(** Modelled from the spec: [scheduleFormSchema] of [@shared/schema].
    Data that raises no issue is returned as it is. *)
Definition scheduleFormSchema (rules : SchemaRules) : Schema :=
  fun d =>
    match schemaIssues rules d with
    | [] => Success d
    | i :: rest => Failure i rest
    end.

(** ** Sample data *)

Module Sample.

Definition isDigit (a : ascii) : bool :=
  let n := nat_of_ascii a in (48 <=? n)%nat && (n <=? 57)%nat.

Definition hhmm (s : string) : bool :=
  match s with
  | String a (String b (String c (String d (String e EmptyString)))) =>
      isDigit a && isDigit b && Ascii.eqb c ":" && isDigit d && isDigit e
  | _ => false
  end.

(** Five weekdays, times written [HH:MM]. *)
Definition rules : SchemaRules :=
  {| weekDays := ["segunda"; "terca"; "quarta"; "quinta"; "sexta"];
     timeOfDay := hhmm;
     messageOf := fun field => "obrigatório: " +:+ field |}.

Definition ana : Obj Professional.t :=
  mkObj 1 (Professional.mk 7 "Ana Lima" "AL").

Definition slot : Obj TimeSlot.t :=
  mkObj 2 (TimeSlot.mk "14:15" "15:45").

Definition consulta : Obj CurrentActivity.t :=
  mkObj 3 (CurrentActivity.mk None "consulta" (Some "Room 2") None).

Definition aula : ActivityType.t := ActivityType.mk 1 "aula" "Aula".

Definition props : Props :=
  mkProps true (Some ana) (Some slot) None "quarta" None.

(** The same dialog, announced as a new entry. *)
Definition propsNew : Props :=
  mkProps true (Some ana) (Some slot) None "quarta" (Some true).

(** Editing an entry that already has an activity. *)
Definition propsConsulta : Props :=
  mkProps true (Some ana) (Some slot) (Some consulta) "quarta" None.

(** A dialog without a professional. *)
Definition propsNobody : Props :=
  mkProps true None (Some slot) None "quarta" None.

(** The opened dialog, and the same after the start time was cleared. *)
Definition opened : State := mount props JUndefined.

Definition cleared : State :=
  fst (step (scheduleFormSchema rules) opened (Change FStartTime "")).

End Sample.

(** ** Vocabulary of the further properties *)

Definition isSave (c : Call) : bool :=
  match c with
  | onSave _ => true
  | onClose => false
  end.

Definition isClose (c : Call) : bool :=
  match c with
  | onSave _ => false
  | onClose => true
  end.

Definition isSubmit (ev : Event) : bool :=
  match ev with
  | Submit => true
  | _ => false
  end.

(** The events whose handlers call [onClose]: the submission, the
    Cancelar button and the dialog's own request to close. *)
Definition asksToClose (ev : Event) : bool :=
  match ev with
  | Submit | Cancel | Dismiss => true
  | _ => false
  end.

(** The events that come from the user, not from the parent or the
    lookup. *)
Definition isUserEvent (ev : Event) : bool :=
  match ev with
  | Render _ | QueryResult _ => false
  | _ => true
  end.

Fixpoint countIf {A : Type} (f : A -> bool) (l : list A) : nat :=
  match l with
  | [] => 0
  | x :: rest => (if f x then 1 else 0) + countIf f rest
  end.

(** Every [onSave] of a list of calls is followed at once by [onClose]. *)
Fixpoint closedAfterSave (cs : list Call) : bool :=
  match cs with
  | [] => true
  | onClose :: rest => closedAfterSave rest
  | onSave _ :: onClose :: rest => closedAfterSave rest
  | onSave _ :: _ => false
  end.

(** The codes an event puts on offer in the select control. *)
Definition offeredCodes (ev : Event) : list string :=
  match ev with
  | QueryResult d => liveCodes d
  | _ => []
  end.

(** The fields whose error the form renders: a paragraph follows the two
    time inputs and the hidden activity input, and no other. *)
Definition shownPaths : list string := ["startTime"; "endTime"; "activityCode"].

(** The props of the renders of a run, in order. *)
Fixpoint rendered (evs : list Event) : list Props :=
  match evs with
  | [] => []
  | Render p :: rest => p :: rendered rest
  | _ :: rest => rendered rest
  end.

(** The parent does not change a professional object in place: among the
    props [ps], two professionals that are the same object have the same
    fields. *)
Definition professionalsUnchanged (ps : list Props) : Prop :=
  ∀ q q', q ∈ ps -> q' ∈ ps ->
          objectIs (professional q) (professional q') = true ->
          professional q = professional q'.

(** Further sample data. *)
Module Cases.

(** The slot object of [Sample.slot], changed in place: the same address,
    other times; and the dialog announced as new. *)
Definition propsMutated : Props :=
  mkProps true (Some Sample.ana) (Some (mkObj 2 (TimeSlot.mk "09:00" "10:00")))
          None "quarta" (Some true).

(** The dialog of [Sample.props], closed. *)
Definition propsClosed : Props :=
  mkProps false (Some Sample.ana) (Some Sample.slot) None "quarta" None.


End Cases.

(** * Properties *)

(** ** Facts about the schema *)

Lemma nonEmpty_true (s : string) : s ≠ "" -> nonEmpty s = true.
Proof.
  intros Hs. unfold nonEmpty. apply negb_true_iff. by apply String.eqb_neq.
Qed.

Lemma nonEmpty_empty : nonEmpty "" = false.
Proof. reflexivity. Qed.

(** A draft that meets every rule is returned unchanged. *)
Lemma schema_accepts (rules : SchemaRules) (d : Form.t) :
  (0 < Form.professionalId d)%Z ->
  Form.weekday d ∈ weekDays rules ->
  Form.startTime d ≠ "" -> timeOfDay rules (Form.startTime d) = true ->
  Form.endTime d ≠ "" -> timeOfDay rules (Form.endTime d) = true ->
  Form.activityCode d ≠ "" ->
  scheduleFormSchema rules d = Success d.
Proof.
  intros Hid Hwd Hs Hst He Het Ha.
  unfold scheduleFormSchema, schemaIssues.
  rewrite (proj2 (Z.ltb_lt _ _) Hid), (bool_decide_eq_true_2 _ Hwd).
  rewrite (nonEmpty_true _ Hs), (nonEmpty_true _ He), (nonEmpty_true _ Ha).
  by rewrite Hst, Het.
Qed.

(** The error object of a draft, field by field: a required text field
    that is empty has its message there. *)
Lemma schema_rejects_empty (rules : SchemaRules) (d : Form.t) :
  let errs := toFieldErrors (schemaIssues rules d) in
  (Form.startTime d = "" -> errs !! "startTime" = Some (messageOf rules "startTime"))
  ∧ (Form.endTime d = "" -> errs !! "endTime" = Some (messageOf rules "endTime"))
  ∧ (Form.activityCode d = "" ->
     errs !! "activityCode" = Some (messageOf rules "activityCode")).
Proof.
  unfold schemaIssues.
  destruct (0 <? Form.professionalId d)%Z,
           (bool_decide (Form.weekday d ∈ weekDays rules));
    (split; [|split]); intros ->; rewrite nonEmpty_empty; simpl;
    repeat match goal with
           | |- context [if ?b then _ else _] => destruct b
           end; simpl; by simplify_map_eq.
Qed.

(** What the resolver answers for a draft with an issue. *)
Lemma zodResolver_issues (rules : SchemaRules) (d : Form.t) :
  schemaIssues rules d ≠ [] ->
  zodResolver (scheduleFormSchema rules) d
  = mkResult None (toFieldErrors (schemaIssues rules d)).
Proof.
  intros Hne. unfold zodResolver, scheduleFormSchema.
  destruct (schemaIssues rules d); [done | reflexivity].
Qed.

Lemma schema_empty_has_issue (rules : SchemaRules) (d : Form.t) :
  Form.startTime d = "" ∨ Form.endTime d = "" ∨ Form.activityCode d = "" ->
  schemaIssues rules d ≠ [].
Proof.
  intros H Hnil.
  pose proof (schema_rejects_empty rules d) as (Hs & He & Ha).
  rewrite Hnil in Hs, He, Ha. simpl in *.
  destruct H as [H | [H | H]]; [apply Hs in H | apply He in H | apply Ha in H];
    by rewrite lookup_empty in H.
Qed.

(** ** Runs *)

Section Runs.

Variable schema : Schema.

Lemma run_cons (st : State) (ev : Event) (rest : list Event) :
  run schema st (ev :: rest)
  = (fst (run schema (fst (step schema st ev)) rest),
     (snd (step schema st ev)
      ++ snd (run schema (fst (step schema st ev)) rest))%list).
Proof.
  simpl. destruct (step schema st ev) as [st1 out1]. simpl.
  by destruct (run schema st1 rest).
Qed.

Lemma run_one (st : State) (ev : Event) : run schema st [ev] = step schema st ev.
Proof.
  rewrite run_cons. simpl. rewrite app_nil_r. by destruct (step schema st ev).
Qed.

End Runs.

(** ** Submission *)

Section Submission.

Variable schema : Schema.

(** When the schema accepts the stored values, [handleSubmit] passes
    the parsed data to [onSubmit]. *)
Lemma handleSubmit_success (st : State) (parsed : Form.t) :
  schema (formValues st) = Success parsed ->
  snd (handleSubmit schema st) = onSubmit st parsed.
Proof.
  intros Hok. unfold handleSubmit, zodResolver. rewrite Hok. simpl.
  by rewrite bool_decide_eq_true_2.
Qed.

(** When it does not, nothing is called. *)
Lemma handleSubmit_failure (st : State) (i : ZodIssue) (rest : list ZodIssue) :
  schema (formValues st) = Failure i rest ->
  snd (handleSubmit schema st) = [].
Proof.
  intros Hko. unfold handleSubmit, zodResolver. by rewrite Hko.
Qed.

(** Whatever the schema says, a submission calls nothing or calls
    [onSave] once and then [onClose] once, and what is saved carries
    the selected activity. *)
Lemma handleSubmit_calls (st : State) :
  snd (handleSubmit schema st) = []
  ∨ ∃ parsed,
      snd (handleSubmit schema st)
      = [onSave (Form.withActivityCode parsed (selectedActivity st)); onClose].
Proof.
  destruct (schema (formValues st)) as [parsed | i rest] eqn:Hs.
  - right. exists parsed. by rewrite (handleSubmit_success _ _ Hs).
  - left. by rewrite (handleSubmit_failure _ _ _ Hs).
Qed.

(** A submission leaves the draft alone. *)
Lemma handleSubmit_keeps_draft (st : State) :
  let st' := fst (handleSubmit schema st) in
  props st' = props st ∧ data st' = data st
  ∧ formValues st' = formValues st
  ∧ selectedActivity st' = selectedActivity st.
Proof.
  unfold handleSubmit.
  destruct (values _); [destruct (bool_decide _) |]; done.
Qed.

End Submission.

(** C1. A draft that is valid (start and end time present and a time of
    day, an activity code present, a positive professional id, a weekday
    among the enumerants) is submitted by one call of [onSave] followed by
    one call of [onClose], and nothing else; the payload is the draft with
    its [activityCode] set to the selected activity, the one the select
    control shows. *)
Theorem valid_submission_saves_then_closes (rules : SchemaRules) (st : State) :
  isOpen (props st) = true ->
  Form.startTime (formValues st) ≠ "" ->
  timeOfDay rules (Form.startTime (formValues st)) = true ->
  Form.endTime (formValues st) ≠ "" ->
  timeOfDay rules (Form.endTime (formValues st)) = true ->
  Form.activityCode (formValues st) ≠ "" ->
  (0 < Form.professionalId (formValues st))%Z ->
  Form.weekday (formValues st) ∈ weekDays rules ->
  ∃ payload,
    snd (step (scheduleFormSchema rules) st Submit) = [onSave payload; onClose]
    ∧ Form.activityCode payload = selectValue (render st)
    ∧ payload = Form.withActivityCode (formValues st) (selectedActivity st).
Proof.
  intros Hopen Hs Hst He Het Ha Hid Hwd.
  exists (Form.withActivityCode (formValues st) (selectedActivity st)).
  split; [| done].
  simpl. rewrite Hopen.
  apply handleSubmit_success. by apply schema_accepts.
Qed.

Lemma valid_submission_saves_then_closes_witness :
  ∃ payload,
    snd (step (scheduleFormSchema Sample.rules)
              Sample.opened Submit)
    = [onSave payload; onClose]
    ∧ Form.activityCode payload = selectValue (render Sample.opened)
    ∧ payload = Form.withActivityCode
                  (formValues Sample.opened)
                  (selectedActivity Sample.opened).
Proof.
  apply (valid_submission_saves_then_closes Sample.rules
           Sample.opened).
  - reflexivity.
  - discriminate.
  - reflexivity.
  - discriminate.
  - reflexivity.
  - discriminate.
  - reflexivity.
  - apply (bool_decide_unpack _). vm_compute. exact I.
Defined.

(** C2. Submitting a draft whose start time, end time or activity code is
    missing calls neither [onSave] nor [onClose]; every one of the three
    that is missing has its message rendered under its input; the dialog
    stays open and the draft is kept as it was. *)
Theorem missing_field_blocks_submission (rules : SchemaRules) (st : State) :
  isOpen (props st) = true ->
  Form.startTime (formValues st) = ""
  ∨ Form.endTime (formValues st) = ""
  ∨ Form.activityCode (formValues st) = "" ->
  let st' := fst (step (scheduleFormSchema rules) st Submit) in
  snd (step (scheduleFormSchema rules) st Submit) = []
  ∧ (Form.startTime (formValues st) = "" ->
     startTimeError (render st') = Some (messageOf rules "startTime"))
  ∧ (Form.endTime (formValues st) = "" ->
     endTimeError (render st') = Some (messageOf rules "endTime"))
  ∧ (Form.activityCode (formValues st) = "" ->
     activityCodeError (render st') = Some (messageOf rules "activityCode"))
  ∧ dialogOpen (render st') = true
  ∧ formValues st' = formValues st
  ∧ selectedActivity st' = selectedActivity st.
Proof.
  intros Hopen Hmiss. simpl. rewrite Hopen.
  pose proof (schema_empty_has_issue rules _ Hmiss) as Hne.
  pose proof (schema_rejects_empty rules (formValues st)) as (Hs & He & Ha).
  unfold handleSubmit. rewrite (zodResolver_issues _ _ Hne). simpl.
  by rewrite Hopen.
Qed.

Lemma missing_field_blocks_submission_witness :
  snd (step (scheduleFormSchema Sample.rules) Sample.cleared Submit) = []
  ∧ (Form.startTime (formValues Sample.cleared) = "" ->
     startTimeError
       (render (fst (step (scheduleFormSchema Sample.rules) Sample.cleared Submit)))
     = Some (messageOf Sample.rules "startTime"))
  ∧ (Form.endTime (formValues Sample.cleared) = "" ->
     endTimeError
       (render (fst (step (scheduleFormSchema Sample.rules) Sample.cleared Submit)))
     = Some (messageOf Sample.rules "endTime"))
  ∧ (Form.activityCode (formValues Sample.cleared) = "" ->
     activityCodeError
       (render (fst (step (scheduleFormSchema Sample.rules) Sample.cleared Submit)))
     = Some (messageOf Sample.rules "activityCode"))
  ∧ dialogOpen
      (render (fst (step (scheduleFormSchema Sample.rules) Sample.cleared Submit)))
    = true
  ∧ formValues (fst (step (scheduleFormSchema Sample.rules) Sample.cleared Submit))
    = formValues Sample.cleared
  ∧ selectedActivity
      (fst (step (scheduleFormSchema Sample.rules) Sample.cleared Submit))
    = selectedActivity Sample.cleared.
Proof.
  apply (missing_field_blocks_submission Sample.rules Sample.cleared).
  - reflexivity.
  - left. reflexivity.
Defined.

(** ** Re-initialisation *)

Lemma resetValues_defaultValues (p : Props) : resetValues p = defaultValues p.
Proof. reflexivity. Qed.

(** The effect of an open dialog leaves a draft made of the props only. *)
Lemma effect_open (st : State) :
  isOpen (props st) = true ->
  effect st
  = mkState (props st) (data st) (activityValue (props st))
            (resetValues (props st)) ∅ false.
Proof. intros Hopen. unfold effect. by rewrite Hopen. Qed.

(** A render of the open dialog with a changed dependency. *)
Lemma rerender_reset (st : State) (p : Props) :
  isOpen p = true ->
  depsChanged (props st) p = true ->
  rerender p st = mkState p (data st) (activityValue p) (resetValues p) ∅ false.
Proof.
  intros Hopen Hdeps. unfold rerender. rewrite Hdeps. by rewrite effect_open.
Qed.

(** A closed dialog that is rendered open has a changed dependency. *)
Lemma depsChanged_opening (old new : Props) :
  isOpen old = false -> isOpen new = true -> depsChanged old new = true.
Proof. intros Ho Hn. unfold depsChanged. by rewrite Ho, Hn. Qed.

(** C6. Opened for the slot 14:15 to 15:45 with no current activity and
    submitted as it is, the dialog calls [onSave] with the activity code
    "disponivel", the two times of the slot, an empty location and empty
    notes, and then [onClose].  The professional id and the weekday of
    the payload are those of the props, and the schema is one that
    accepts this draft.  It is so whether the dialog is mounted open or
    is rendered open from a closed state, whichever that state is. *)
Theorem unchanged_slot_scenario
    (schema : Schema) (who : option (Obj Professional.t)) (a : nat)
    (day : string) (new : option bool) (d : QueryData) :
  let p := mkProps true who (Some (mkObj a (TimeSlot.mk "14:15" "15:45")))
                   None day new in
  let payload := {| Form.professionalId := orNum (optChain who Professional.id) 0;
                    Form.weekday := day;
                    Form.startTime := "14:15";
                    Form.endTime := "15:45";
                    Form.activityCode := "disponivel";
                    Form.location := "";
                    Form.notes := "" |} in
  schema payload = Success payload ->
  calls schema p d [Submit] = [onSave payload; onClose]
  ∧ ∀ st : State,
      isOpen (props st) = false ->
      snd (run schema st [Render p; Submit]) = [onSave payload; onClose].
Proof.
  intros p payload Hok. split.
  - unfold calls. rewrite run_one. simpl.
    by rewrite (handleSubmit_success _ _ payload).
  - intros st Hclosed. rewrite run_cons, run_one. simpl.
    rewrite rerender_reset; [| done | by apply depsChanged_opening]. simpl.
    by rewrite (handleSubmit_success _ _ payload).
Qed.

Lemma unchanged_slot_scenario_witness :
  calls (scheduleFormSchema Sample.rules)
        (mkProps true (Some Sample.ana)
                 (Some (mkObj 2 (TimeSlot.mk "14:15" "15:45"))) None "quarta" None)
        JUndefined [Submit]
  = [onSave {| Form.professionalId := 7;
               Form.weekday := "quarta";
               Form.startTime := "14:15";
               Form.endTime := "15:45";
               Form.activityCode := "disponivel";
               Form.location := "";
               Form.notes := "" |};
     onClose]
  ∧ ∀ st : State,
      isOpen (props st) = false ->
      snd (run (scheduleFormSchema Sample.rules) st
               [Render (mkProps true (Some Sample.ana)
                                (Some (mkObj 2 (TimeSlot.mk "14:15" "15:45")))
                                None "quarta" None);
                Submit])
      = [onSave {| Form.professionalId := 7;
                   Form.weekday := "quarta";
                   Form.startTime := "14:15";
                   Form.endTime := "15:45";
                   Form.activityCode := "disponivel";
                   Form.location := "";
                   Form.notes := "" |};
         onClose].
Proof.
  apply (unchanged_slot_scenario (scheduleFormSchema Sample.rules)
           (Some Sample.ana) 2 "quarta" None JUndefined).
  reflexivity.
Defined.

(** [x || ""] is [x] when there is one, the empty string otherwise. *)
Lemma orStr_empty (x : option string) :
  orStr x "" = match x with Some s => s | None => "" end.
Proof.
  destruct x as [s |]; [| done]. unfold orStr.
  by destruct (String.eqb_spec s "") as [-> |].
Qed.

(** [x || 0] is [x] when there is one, zero otherwise. *)
Lemma orNum_zero (x : option Z) :
  orNum x 0 = match x with Some n => n | None => 0%Z end.
Proof.
  destruct x as [n |]; [| done]. unfold orNum.
  by destruct (Z.eqb_spec n 0) as [-> |].
Qed.

(** C3. When the dialog is rendered open and [isOpen] has just become
    true, or [professional], [timeSlot], [currentActivity] (compared by
    identity, as React does) or [weekday] differs from the previous
    render, the whole draft is made anew from the props of this render:
    the stored values, the selected activity and the select control that
    shows it, with no error left.  Field by field: the id of the
    professional passed in, 0 without one; the weekday passed in; the
    start and the end of the slot passed in, empty without one; the
    [atividade] of the current activity, "disponivel" when it is empty or
    there is none, both as stored code and as selection; its [local] and
    [observacoes], empty when absent.  Nothing of the earlier draft is in
    it.  A dialog that is mounted open starts from the same draft. *)
Theorem prop_change_resets_draft
    (schema : Schema) (st : State) (p : Props) (d : QueryData) :
  isOpen p = true ->
  isOpen (props st) = false
  ∨ objectIs (professional (props st)) (professional p) = false
  ∨ objectIs (timeSlot (props st)) (timeSlot p) = false
  ∨ objectIs (currentActivity (props st)) (currentActivity p) = false
  ∨ weekday (props st) ≠ weekday p ->
  fst (step schema st (Render p))
  = mkState p (data st) (activityValue p) (resetValues p) ∅ false
  ∧ selectValue (render (fst (step schema st (Render p)))) = activityValue p
  ∧ hiddenActivityCode (render (fst (step schema st (Render p)))) = activityValue p
  ∧ mount p d = mkState p d (activityValue p) (resetValues p) ∅ false
  ∧ formValues (fst (step schema st (Render p)))
    = {| Form.professionalId :=
           match professional p with
           | Some who => Professional.id (fields who)
           | None => 0%Z
           end;
         Form.weekday := weekday p;
         Form.startTime :=
           match timeSlot p with
           | Some slot => TimeSlot.startTime (fields slot)
           | None => ""
           end;
         Form.endTime :=
           match timeSlot p with
           | Some slot => TimeSlot.endTime (fields slot)
           | None => ""
           end;
         Form.activityCode :=
           match currentActivity p with
           | Some current =>
               if String.eqb (CurrentActivity.atividade (fields current)) ""
               then "disponivel"
               else CurrentActivity.atividade (fields current)
           | None => "disponivel"
           end;
         Form.location :=
           match currentActivity p with
           | Some current =>
               match CurrentActivity.local (fields current) with
               | Some place => place
               | None => ""
               end
           | None => ""
           end;
         Form.notes :=
           match currentActivity p with
           | Some current =>
               match CurrentActivity.observacoes (fields current) with
               | Some remark => remark
               | None => ""
               end
           | None => ""
           end |}
  ∧ selectedActivity (fst (step schema st (Render p)))
    = match currentActivity p with
      | Some current =>
          if String.eqb (CurrentActivity.atividade (fields current)) ""
          then "disponivel"
          else CurrentActivity.atividade (fields current)
      | None => "disponivel"
      end
  ∧ selectValue (render (fst (step schema st (Render p))))
    = Form.activityCode (formValues (fst (step schema st (Render p))))
  ∧ formValues (mount p d) = formValues (fst (step schema st (Render p)))
  ∧ selectedActivity (mount p d)
    = selectedActivity (fst (step schema st (Render p)))
  ∧ errors (fst (step schema st (Render p))) = ∅
  ∧ isSubmitted (fst (step schema st (Render p))) = false
  ∧ startTimeError (render (fst (step schema st (Render p)))) = None
  ∧ endTimeError (render (fst (step schema st (Render p)))) = None
  ∧ activityCodeError (render (fst (step schema st (Render p)))) = None.
Proof.
  intros Hopen Hchg.
  assert (Hdeps : depsChanged (props st) p = true).
  { unfold depsChanged. apply negb_true_iff.
    destruct Hchg as [H | [H | [H | [H | H]]]].
    - rewrite H, Hopen. reflexivity.
    - rewrite H. by rewrite !andb_false_r.
    - rewrite H. by rewrite !andb_false_r.
    - rewrite H. by rewrite !andb_false_r.
    - apply String.eqb_neq in H. rewrite H. by rewrite !andb_false_r. }
  assert (Hst : fst (step schema st (Render p))
                = mkState p (data st) (activityValue p) (resetValues p) ∅ false)
    by by apply rerender_reset.
  assert (Hmount : mount p d
                   = mkState p d (activityValue p) (resetValues p) ∅ false).
  { unfold mount. by rewrite effect_open. }
  assert (Hact : activityValue p
                 = match currentActivity p with
                   | Some current =>
                       if String.eqb (CurrentActivity.atividade (fields current)) ""
                       then "disponivel"
                       else CurrentActivity.atividade (fields current)
                   | None => "disponivel"
                   end).
  { unfold activityValue. by destruct (currentActivity p). }
  rewrite Hst, Hmount. cbn [formValues selectedActivity errors isSubmitted].
  repeat split; try done.
  unfold resetValues. rewrite orNum_zero, !orStr_empty, Hact.
  by destruct (professional p), (timeSlot p), (currentActivity p).
Qed.

Lemma prop_change_resets_draft_witness :
  fst (step (scheduleFormSchema Sample.rules) Sample.cleared
            (Render Sample.propsConsulta))
  = mkState Sample.propsConsulta (data Sample.cleared)
            (activityValue Sample.propsConsulta)
            (resetValues Sample.propsConsulta) ∅ false
  ∧ selectValue
      (render (fst (step (scheduleFormSchema Sample.rules) Sample.cleared
                         (Render Sample.propsConsulta))))
    = activityValue Sample.propsConsulta
  ∧ hiddenActivityCode
      (render (fst (step (scheduleFormSchema Sample.rules) Sample.cleared
                         (Render Sample.propsConsulta))))
    = activityValue Sample.propsConsulta
  ∧ mount Sample.propsConsulta JUndefined
    = mkState Sample.propsConsulta JUndefined
              (activityValue Sample.propsConsulta)
              (resetValues Sample.propsConsulta) ∅ false
  ∧ formValues (fst (step (scheduleFormSchema Sample.rules) Sample.cleared
                          (Render Sample.propsConsulta)))
    = {| Form.professionalId := 7;
         Form.weekday := "quarta";
         Form.startTime := "14:15";
         Form.endTime := "15:45";
         Form.activityCode := "consulta";
         Form.location := "Room 2";
         Form.notes := "" |}
  ∧ selectedActivity (fst (step (scheduleFormSchema Sample.rules) Sample.cleared
                                (Render Sample.propsConsulta)))
    = "consulta"
  ∧ selectValue
      (render (fst (step (scheduleFormSchema Sample.rules) Sample.cleared
                         (Render Sample.propsConsulta))))
    = Form.activityCode
        (formValues (fst (step (scheduleFormSchema Sample.rules) Sample.cleared
                               (Render Sample.propsConsulta))))
  ∧ formValues (mount Sample.propsConsulta JUndefined)
    = formValues (fst (step (scheduleFormSchema Sample.rules) Sample.cleared
                            (Render Sample.propsConsulta)))
  ∧ selectedActivity (mount Sample.propsConsulta JUndefined)
    = selectedActivity (fst (step (scheduleFormSchema Sample.rules) Sample.cleared
                                  (Render Sample.propsConsulta)))
  ∧ errors (fst (step (scheduleFormSchema Sample.rules) Sample.cleared
                      (Render Sample.propsConsulta))) = ∅
  ∧ isSubmitted (fst (step (scheduleFormSchema Sample.rules) Sample.cleared
                           (Render Sample.propsConsulta))) = false
  ∧ startTimeError
      (render (fst (step (scheduleFormSchema Sample.rules) Sample.cleared
                         (Render Sample.propsConsulta)))) = None
  ∧ endTimeError
      (render (fst (step (scheduleFormSchema Sample.rules) Sample.cleared
                         (Render Sample.propsConsulta)))) = None
  ∧ activityCodeError
      (render (fst (step (scheduleFormSchema Sample.rules) Sample.cleared
                         (Render Sample.propsConsulta)))) = None.
Proof.
  apply (prop_change_resets_draft (scheduleFormSchema Sample.rules)
           Sample.cleared Sample.propsConsulta JUndefined).
  - reflexivity.
  - right. right. right. left. reflexivity.
Defined.

(** ** The selected activity and the stored activity code *)

Section Sync.

Variable schema : Schema.

Lemma setField_activityCode (f : Field) (v : string) (d : Form.t) :
  Form.activityCode (setField f v d) = Form.activityCode d.
Proof. by destruct f. Qed.

Lemma mount_in_sync (p : Props) (d : QueryData) :
  Form.activityCode (formValues (mount p d)) = selectedActivity (mount p d).
Proof. unfold mount, effect. simpl. by destruct (isOpen p). Qed.

Lemma rerender_in_sync (p : Props) (st : State) :
  Form.activityCode (formValues st) = selectedActivity st ->
  Form.activityCode (formValues (rerender p st))
  = selectedActivity (rerender p st).
Proof.
  intros Hsync. unfold rerender, effect.
  destruct (depsChanged (props st) p); [| done].
  simpl. by destruct (isOpen p).
Qed.

Lemma step_in_sync (st : State) (ev : Event) :
  Form.activityCode (formValues st) = selectedActivity st ->
  Form.activityCode (formValues (fst (step schema st ev)))
  = selectedActivity (fst (step schema st ev)).
Proof.
  intros Hsync. destruct ev as [p | d | f v | i | | |]; simpl.
  - by apply rerender_in_sync.
  - done.
  - destruct (isOpen (props st)); [| done].
    simpl. by rewrite setField_activityCode.
  - destruct (isOpen (props st)); [| done].
    by destruct (selectItems (data st) !! i).
  - destruct (isOpen (props st)); [| done].
    by destruct (handleSubmit_keeps_draft schema st) as (_ & _ & -> & ->).
  - by destruct (isOpen (props st)).
  - by destruct (isOpen (props st)).
Qed.

Lemma run_in_sync (evs : list Event) (st : State) :
  Form.activityCode (formValues st) = selectedActivity st ->
  Form.activityCode (formValues (fst (run schema st evs)))
  = selectedActivity (fst (run schema st evs)).
Proof.
  revert st. induction evs as [| ev evs IH]; intros st Hsync; [done |].
  rewrite run_cons. simpl. by apply IH, step_in_sync.
Qed.

(** What a submission calls, in any state. *)
Lemma submit_calls (st : State) :
  snd (step schema st Submit) = []
  ∨ ∃ payload,
      snd (step schema st Submit) = [onSave payload; onClose]
      ∧ Form.activityCode payload = selectedActivity st.
Proof.
  simpl. destruct (isOpen (props st)); [| by left].
  destruct (handleSubmit_calls schema st) as [Hnil | [parsed Hcalls]].
  - by left.
  - right. eexists. split; [exact Hcalls | reflexivity].
Qed.

End Sync.

(** C4. Selecting an activity writes the value both to the state of the
    select control and to the [activityCode] of the form store; in every
    state the dialog can reach, whatever was selected, edited or rendered
    before, the control, the hidden input and the stored [activityCode]
    hold the same value, and a submission that saves, saves that value.
    When the user of the open dialog picks an item of the list, the
    control, the hidden input and the stored code all take the value of
    that item, and it is the value a submission then saves. *)
Theorem selection_and_code_never_diverge
    (schema : Schema) (p : Props) (d : QueryData) (evs : list Event)
    (value : string) :
  selectedActivity (handleActivityChange value (fst (run schema (mount p d) evs)))
  = value
  ∧ Form.activityCode
      (formValues (handleActivityChange value (fst (run schema (mount p d) evs))))
    = value
  ∧ selectValue (render (fst (run schema (mount p d) evs)))
    = Form.activityCode (formValues (fst (run schema (mount p d) evs)))
  ∧ hiddenActivityCode (render (fst (run schema (mount p d) evs)))
    = Form.activityCode (formValues (fst (run schema (mount p d) evs)))
  ∧ (snd (step schema (fst (run schema (mount p d) evs)) Submit) = []
     ∨ ∃ payload,
         snd (step schema (fst (run schema (mount p d) evs)) Submit)
         = [onSave payload; onClose]
         ∧ Form.activityCode payload
           = selectValue (render (fst (run schema (mount p d) evs))))
  ∧ (∀ (i : nat) (item : SelectItem),
       isOpen (props (fst (run schema (mount p d) evs))) = true ->
       items (render (fst (run schema (mount p d) evs))) !! i = Some item ->
       selectValue
         (render (fst (step schema (fst (run schema (mount p d) evs)) (Select i))))
       = itemValue item
       ∧ hiddenActivityCode
           (render (fst (step schema (fst (run schema (mount p d) evs)) (Select i))))
         = itemValue item
       ∧ Form.activityCode
           (formValues
              (fst (step schema (fst (run schema (mount p d) evs)) (Select i))))
         = itemValue item
       ∧ (snd (step schema
                    (fst (step schema (fst (run schema (mount p d) evs)) (Select i)))
                    Submit) = []
          ∨ ∃ payload,
              snd (step schema
                        (fst (step schema (fst (run schema (mount p d) evs))
                                   (Select i)))
                        Submit)
              = [onSave payload; onClose]
              ∧ Form.activityCode payload = itemValue item)).
Proof.
  pose proof (run_in_sync schema evs _ (mount_in_sync p d)) as Hsync.
  do 5 (split; [first [done | apply submit_calls] |]).
  intros i item Hopen Hitem.
  assert (Hpick : fst (step schema (fst (run schema (mount p d) evs)) (Select i))
                  = handleActivityChange (itemValue item)
                      (fst (run schema (mount p d) evs))).
  { unfold render in Hitem. cbn [items] in Hitem. simpl.
    by rewrite Hopen, Hitem. }
  rewrite Hpick. do 3 (split; [reflexivity |]).
  destruct (submit_calls schema
              (handleActivityChange (itemValue item)
                 (fst (run schema (mount p d) evs))))
    as [Hnil | (payload & Hcalls & Hcode)]; [by left | right].
  exists payload. by split.
Qed.

Lemma selection_and_code_never_diverge_witness :
  selectValue
    (render (fst (step (scheduleFormSchema Sample.rules)
                       (fst (run (scheduleFormSchema Sample.rules)
                                 (mount Sample.props (JArray [Sample.aula]))
                                 [Select 0]))
                       (Select 1))))
  = "aula"
  ∧ hiddenActivityCode
      (render (fst (step (scheduleFormSchema Sample.rules)
                         (fst (run (scheduleFormSchema Sample.rules)
                                   (mount Sample.props (JArray [Sample.aula]))
                                   [Select 0]))
                         (Select 1))))
    = "aula"
  ∧ Form.activityCode
      (formValues
         (fst (step (scheduleFormSchema Sample.rules)
                    (fst (run (scheduleFormSchema Sample.rules)
                              (mount Sample.props (JArray [Sample.aula]))
                              [Select 0]))
                    (Select 1))))
    = "aula"
  ∧ (snd (step (scheduleFormSchema Sample.rules)
               (fst (step (scheduleFormSchema Sample.rules)
                          (fst (run (scheduleFormSchema Sample.rules)
                                    (mount Sample.props (JArray [Sample.aula]))
                                    [Select 0]))
                          (Select 1)))
               Submit) = []
     ∨ ∃ payload,
         snd (step (scheduleFormSchema Sample.rules)
                   (fst (step (scheduleFormSchema Sample.rules)
                              (fst (run (scheduleFormSchema Sample.rules)
                                        (mount Sample.props (JArray [Sample.aula]))
                                        [Select 0]))
                              (Select 1)))
                   Submit)
         = [onSave payload; onClose]
         ∧ Form.activityCode payload = "aula").
Proof.
  apply (proj2 (proj2 (proj2 (proj2 (proj2
           (selection_and_code_never_diverge (scheduleFormSchema Sample.rules)
              Sample.props (JArray [Sample.aula]) [Select 0] ""))))) 1
           (itemOf Sample.aula)).
  - reflexivity.
  - reflexivity.
Defined.

(** ** The list of activities *)

Lemma selectItems_not_array (d : QueryData) :
  Array_isArray d = false -> selectItems d = [disponivelItem].
Proof. by destruct d. Qed.

(** C7. Once the lookup has delivered a list of activity types, the items
    of the select control are the item "disponivel" followed by one item
    for each delivered type, in the order delivered: a value can be
    selected exactly when it is the sentinel or the code of a delivered
    type, and the sentinel comes first, whatever the lookup delivered. *)
Theorem items_are_sentinel_then_fetched
    (schema : Schema) (st : State) (l : list ActivityType.t) (d : QueryData) :
  items (render (fst (step schema st (QueryResult (JArray l)))))
  = disponivelItem :: map itemOf l
  ∧ (∀ c : string,
       c ∈ map itemValue
             (items (render (fst (step schema st (QueryResult (JArray l))))))
       ↔ c = disponivel ∨ ∃ a, a ∈ l ∧ ActivityType.code a = c)
  ∧ head (items (render (fst (step schema st (QueryResult d)))))
    = Some disponivelItem.
Proof.
  split; [reflexivity |]. split; [| reflexivity].
  intros c. simpl. rewrite elem_of_cons, list_elem_of_fmap.
  split.
  - intros [-> | (item & -> & Hitem)]; [by left | right].
    apply list_elem_of_fmap in Hitem as (a & -> & Ha). by exists a.
  - intros [-> | (a & Ha & <-)]; [by left | right].
    exists (itemOf a). split; [done |].
    apply list_elem_of_fmap. by exists a.
Qed.

(** The view depends on the data of the lookup through the items only. *)
Lemma render_ext (s t : State) :
  props s = props t ->
  selectedActivity s = selectedActivity t ->
  formValues s = formValues t ->
  errors s = errors t ->
  selectItems (data s) = selectItems (data t) ->
  render s = render t.
Proof.
  intros Hp Hsel Hvals Herrs Hitems. unfold render.
  by rewrite Hp, Hsel, Hvals, Herrs, Hitems.
Qed.

(** On answers whose arrays hold activity-type records, the list of any
    answer is the list of the component. *)
Lemma rawSelectItems_answerOf (d : QueryData) :
  rawSelectItems (answerOf d) = Some (map rawOf (selectItems d)).
Proof.
  destruct d as [| | | l]; try reflexivity.
  unfold rawSelectItems, selectItems. cbn [answerOf activityTypes].
  assert (Hall : mapM rawItemOf
                   (map (fun activity =>
                           EValue (Some (ActivityType.code activity))
                                  (Some (ActivityType.name activity))) l)
                 = Some (map rawOf
                           (map (fun activity =>
                                   mkItem (ActivityType.code activity)
                                          (ActivityType.name activity)) l))).
  { induction l as [| activity l IH]; [done |]. cbn. by rewrite IH. }
  by rewrite Hall.
Qed.

(** C8, amended.  When the lookup has failed or answered with something
    that is not an array (nothing, null, any other value), rendering the
    list does not throw and the select control offers the item
    "disponivel" alone; the dialog opens all the same, nothing on screen
    tells of the failure (the view is the one of an empty list of
    activity types), and every event is handled as it is with an empty
    list: the same calls, the same view afterwards. *)
Theorem failed_lookup_degrades_to_sentinel
    (schema : Schema) (st : State) (p : Props) (d : QueryData) (ev : Event) :
  Array_isArray d = false ->
  rawSelectItems (answerOf d) = Some [rawOf disponivelItem]
  ∧ items (render (fst (step schema st (QueryResult d)))) = [disponivelItem]
  ∧ items (render (mount p d)) = [disponivelItem]
  ∧ dialogOpen (render (mount p d)) = isOpen p
  ∧ render (fst (step schema st (QueryResult d)))
    = render (fst (step schema st (QueryResult (JArray []))))
  ∧ snd (step schema (fst (step schema st (QueryResult d))) ev)
    = snd (step schema (fst (step schema st (QueryResult (JArray [])))) ev)
  ∧ render (fst (step schema (fst (step schema st (QueryResult d))) ev))
    = render (fst (step schema (fst (step schema st (QueryResult (JArray [])))) ev)).
Proof.
  intros Hd.
  assert (Hitems : selectItems d = selectItems (JArray []))
    by by apply selectItems_not_array.
  split; [by rewrite rawSelectItems_answerOf, Hitems |].
  split; [exact Hitems |].
  split; [unfold mount, effect; cbn [props]; destruct (isOpen p); exact Hitems |].
  split; [unfold mount, effect; cbn [props]; by destruct (isOpen p) eqn:Hopen |].
  split; [by apply render_ext |].
  destruct ev as [q | d' | f v | i | | |]; simpl.
  - split; [done |].
    unfold rerender, effect. simpl.
    destruct (depsChanged (props st) q); simpl;
      [destruct (isOpen q) |]; by apply render_ext.
  - done.
  - destruct (isOpen (props st)); simpl; (split; [done | by apply render_ext]).
  - rewrite Hitems.
    destruct (isOpen (props st)); simpl;
      [destruct (selectItems (JArray []) !! i); simpl |];
      (split; [done | by apply render_ext]).
  - destruct (isOpen (props st)); simpl.
    + unfold handleSubmit. simpl.
      destruct (values (zodResolver schema (formValues st)));
        [destruct (bool_decide _) |]; simpl;
        (split; [done | by apply render_ext]).
    + split; [done | by apply render_ext].
  - destruct (isOpen (props st)); simpl; (split; [done | by apply render_ext]).
  - destruct (isOpen (props st)); simpl; (split; [done | by apply render_ext]).
Qed.

Lemma failed_lookup_degrades_to_sentinel_witness :
  rawSelectItems (answerOf JNull) = Some [rawOf disponivelItem]
  ∧ items (render (fst (step (scheduleFormSchema Sample.rules) Sample.opened
                           (QueryResult JNull))))
  = [disponivelItem]
  ∧ items (render (mount Sample.props JNull)) = [disponivelItem]
  ∧ dialogOpen (render (mount Sample.props JNull)) = isOpen Sample.props
  ∧ render (fst (step (scheduleFormSchema Sample.rules) Sample.opened
                      (QueryResult JNull)))
    = render (fst (step (scheduleFormSchema Sample.rules) Sample.opened
                        (QueryResult (JArray []))))
  ∧ snd (step (scheduleFormSchema Sample.rules)
              (fst (step (scheduleFormSchema Sample.rules) Sample.opened
                         (QueryResult JNull))) Submit)
    = snd (step (scheduleFormSchema Sample.rules)
                (fst (step (scheduleFormSchema Sample.rules) Sample.opened
                           (QueryResult (JArray [])))) Submit)
  ∧ render (fst (step (scheduleFormSchema Sample.rules)
                      (fst (step (scheduleFormSchema Sample.rules) Sample.opened
                                 (QueryResult JNull))) Submit))
    = render (fst (step (scheduleFormSchema Sample.rules)
                        (fst (step (scheduleFormSchema Sample.rules) Sample.opened
                                   (QueryResult (JArray [])))) Submit)).
Proof.
  apply (failed_lookup_degrades_to_sentinel (scheduleFormSchema Sample.rules)
           Sample.opened Sample.props JNull Submit).
  reflexivity.
Defined.

(** Counterexample to C8 as first stated.  The lookup answers with an
    array that is malformed: with [null] for an element, rendering the
    list throws, so there is no list at all; with an empty object for an
    element, the list has a second item, one with no value and no
    label. *)
Lemma malformed_array_is_not_degraded :
  rawSelectItems (AArray [ENull]) = None
  ∧ rawSelectItems (AArray [EValue None None])
    = Some [mkRaw (Some "disponivel") (Some "Disponível"); mkRaw None None].
Proof. split; reflexivity. Qed.

(** ** The professional id *)

Lemma depsChanged_false (old new : Props) :
  depsChanged old new = false ->
  isOpen old = isOpen new
  ∧ objectIs (professional old) (professional new) = true
  ∧ objectIs (timeSlot old) (timeSlot new) = true
  ∧ objectIs (currentActivity old) (currentActivity new) = true
  ∧ weekday old = weekday new.
Proof.
  unfold depsChanged. intros H. apply negb_false_iff in H.
  repeat (apply andb_prop in H as [H ?]).
  repeat split; try done.
  - by apply Bool.eqb_prop.
  - by apply String.eqb_eq.
Qed.

Lemma objectIs_None {A : Type} (x : option (Obj A)) :
  objectIs x None = true -> x = None.
Proof. by destruct x. Qed.

Lemma defaultValues_no_professional (p : Props) :
  professional p = None -> Form.professionalId (defaultValues p) = 0%Z.
Proof. intros Hp. unfold defaultValues. simpl. by rewrite Hp. Qed.

Lemma resetValues_no_professional (p : Props) :
  professional p = None -> Form.professionalId (resetValues p) = 0%Z.
Proof. intros Hp. unfold resetValues. simpl. by rewrite Hp. Qed.

Section ProfessionalId.

Variable schema : Schema.

Lemma setField_professionalId (f : Field) (v : string) (d : Form.t) :
  Form.professionalId (setField f v d) = Form.professionalId d.
Proof. by destruct f. Qed.

(** While the dialog is open without a professional, the stored id is
    zero: the property is kept by every event. *)
Lemma step_no_professional (st : State) (ev : Event) :
  (isOpen (props st) = true -> professional (props st) = None ->
   Form.professionalId (formValues st) = 0%Z) ->
  isOpen (props (fst (step schema st ev))) = true ->
  professional (props (fst (step schema st ev))) = None ->
  Form.professionalId (formValues (fst (step schema st ev))) = 0%Z.
Proof.
  intros IH. destruct ev as [p | d | f v | i | | |]; simpl.
  - unfold rerender.
    destruct (depsChanged (props st) p) eqn:Hdeps.
    + unfold effect. simpl. destruct (isOpen p) eqn:Hopen; simpl.
      * intros _ Hp. by apply resetValues_no_professional.
      * intros Hopen'. congruence.
    + simpl. intros Hopen Hp.
      apply depsChanged_false in Hdeps as (Ho & Hprof & _).
      apply IH; [congruence |].
      rewrite Hp in Hprof. by apply objectIs_None.
  - exact IH.
  - destruct (isOpen (props st)) eqn:Hopen; simpl; [| congruence].
    rewrite setField_professionalId. intros _. by apply IH.
  - destruct (isOpen (props st)) eqn:Hopen; simpl; [| congruence].
    destruct (selectItems (data st) !! i); simpl; intros _; by apply IH.
  - destruct (isOpen (props st)) eqn:Hopen; simpl; [| congruence].
    destruct (handleSubmit_keeps_draft schema st) as (-> & _ & -> & _).
    intros _. by apply IH.
  - destruct (isOpen (props st)) eqn:Hopen; simpl; [| congruence].
    intros _. by apply IH.
  - destruct (isOpen (props st)) eqn:Hopen; simpl; [| congruence].
    intros _. by apply IH.
Qed.

Lemma run_no_professional (evs : list Event) (st : State) :
  (isOpen (props st) = true -> professional (props st) = None ->
   Form.professionalId (formValues st) = 0%Z) ->
  isOpen (props (fst (run schema st evs))) = true ->
  professional (props (fst (run schema st evs))) = None ->
  Form.professionalId (formValues (fst (run schema st evs))) = 0%Z.
Proof.
  revert st. induction evs as [| ev evs IH]; intros st Hst; [done |].
  rewrite run_cons. simpl. apply IH. by apply step_no_professional.
Qed.

Lemma mount_no_professional (p : Props) (d : QueryData) :
  professional p = None ->
  Form.professionalId (formValues (mount p d)) = 0%Z.
Proof.
  intros Hp. unfold mount, effect. cbn [props].
  destruct (isOpen p); simpl; by rewrite Hp.
Qed.

Lemma mount_props (p : Props) (d : QueryData) : props (mount p d) = p.
Proof. unfold mount, effect. cbn [props]. by destruct (isOpen p). Qed.

End ProfessionalId.

(** C10. With no professional, the draft gets the id 0, not an absent
    value: in the default values of the form, in the values of every
    reset, and so in the draft of every open dialog whose props have no
    professional, whatever happened before.  What such a dialog submits
    for validation has the id 0, which is not positive, and a schema
    that lets it through has [onSave] called with the id 0. *)
Theorem no_professional_gives_id_zero
    (schema : Schema) (p : Props) (d : QueryData) (evs : list Event) (q : Props) :
  professional q = None ->
  Form.professionalId (defaultValues q) = 0%Z
  ∧ Form.professionalId (resetValues q) = 0%Z
  ∧ Form.professionalId (formValues (mount q d)) = 0%Z
  ∧ (props (fst (run schema (mount p d) evs)) = q ->
     isOpen q = true ->
     Form.professionalId (formValues (fst (run schema (mount p d) evs))) = 0%Z
     ∧ ¬ (0 < Form.professionalId (formValues (fst (run schema (mount p d) evs))))%Z
     ∧ (schema (formValues (fst (run schema (mount p d) evs)))
        = Success (formValues (fst (run schema (mount p d) evs))) ->
        ∃ payload,
          snd (step schema (fst (run schema (mount p d) evs)) Submit)
          = [onSave payload; onClose]
          ∧ Form.professionalId payload = 0%Z)).
Proof.
  intros Hq.
  split; [by apply defaultValues_no_professional |].
  split; [by apply resetValues_no_professional |].
  split; [by apply mount_no_professional |].
  intros Hprops Hopen.
  assert (Hid : Form.professionalId (formValues (fst (run schema (mount p d) evs)))
                = 0%Z).
  { apply run_no_professional.
    - intros _. rewrite mount_props. apply mount_no_professional.
    - by rewrite Hprops.
    - by rewrite Hprops. }
  split; [exact Hid |]. split; [lia |].
  intros Hok. eexists. split.
  - simpl. rewrite Hprops, Hopen. by apply handleSubmit_success.
  - exact Hid.
Qed.

Lemma no_professional_gives_id_zero_witness :
  Form.professionalId (defaultValues Sample.propsNobody) = 0%Z
  ∧ Form.professionalId (resetValues Sample.propsNobody) = 0%Z
  ∧ Form.professionalId (formValues (mount Sample.propsNobody JUndefined)) = 0%Z
  ∧ (props (fst (run (scheduleFormSchema Sample.rules)
                     (mount Sample.props JUndefined)
                     [Change FNotes "sem profissional"; Render Sample.propsNobody]))
     = Sample.propsNobody ->
     isOpen Sample.propsNobody = true ->
     Form.professionalId
       (formValues (fst (run (scheduleFormSchema Sample.rules)
                             (mount Sample.props JUndefined)
                             [Change FNotes "sem profissional";
                              Render Sample.propsNobody])))
     = 0%Z
     ∧ ¬ (0 < Form.professionalId
                (formValues (fst (run (scheduleFormSchema Sample.rules)
                                      (mount Sample.props JUndefined)
                                      [Change FNotes "sem profissional";
                                       Render Sample.propsNobody]))))%Z
     ∧ (scheduleFormSchema Sample.rules
          (formValues (fst (run (scheduleFormSchema Sample.rules)
                                (mount Sample.props JUndefined)
                                [Change FNotes "sem profissional";
                                 Render Sample.propsNobody])))
        = Success
            (formValues (fst (run (scheduleFormSchema Sample.rules)
                                  (mount Sample.props JUndefined)
                                  [Change FNotes "sem profissional";
                                   Render Sample.propsNobody]))) ->
        ∃ payload,
          snd (step (scheduleFormSchema Sample.rules)
                    (fst (run (scheduleFormSchema Sample.rules)
                              (mount Sample.props JUndefined)
                              [Change FNotes "sem profissional";
                               Render Sample.propsNobody])) Submit)
          = [onSave payload; onClose]
          ∧ Form.professionalId payload = 0%Z)).
Proof.
  apply (no_professional_gives_id_zero (scheduleFormSchema Sample.rules)
           Sample.props JUndefined
           [Change FNotes "sem profissional"; Render Sample.propsNobody]
           Sample.propsNobody).
  reflexivity.
Defined.

(** ** Where a saved activity code comes from *)

Lemma activityValue_known (p : Props) :
  activityValue p ∈ disponivel :: propCodes p.
Proof.
  unfold activityValue, propCodes.
  destruct (currentActivity p) as [o |]; simpl; [| by left].
  destruct (String.eqb _ _); [by left | right; by left].
Qed.

Lemma selectItems_values (d : QueryData) :
  map itemValue (selectItems d) = disponivel :: liveCodes d.
Proof.
  unfold selectItems, liveCodes. simpl. f_equal.
  destruct (activityTypes d); try done.
  by rewrite map_map.
Qed.

Lemma selectItems_lookup (d : QueryData) (i : nat) (item : SelectItem) :
  selectItems d !! i = Some item ->
  itemValue item ∈ disponivel :: liveCodes d.
Proof.
  intros Hi. rewrite <- selectItems_values.
  apply list_elem_of_fmap. exists item. split; [done |].
  by apply list_elem_of_lookup_2 in Hi.
Qed.

Section Provenance.

Variable schema : Schema.

Lemma covers_more (K L : list string) (st : State) :
  covers K st -> covers (K ++ L)%list st.
Proof.
  intros (Hsel & Hdisp & Hlive).
  repeat split; try (apply elem_of_app; by left).
  intros c Hc. apply elem_of_app. left. by apply Hlive.
Qed.

Lemma covers_same (K : list string) (s t : State) :
  selectedActivity t = selectedActivity s -> data t = data s ->
  covers K s -> covers K t.
Proof. unfold covers. by intros -> ->. Qed.

Lemma mount_covered (p : Props) (d : QueryData) :
  covers (disponivel :: propCodes p ++ liveCodes d)%list (mount p d).
Proof.
  assert (Hact : activityValue p ∈ (disponivel :: propCodes p ++ liveCodes d)%list).
  { rewrite app_comm_cons. apply elem_of_app. left. apply activityValue_known. }
  assert (Hlive : ∀ c, c ∈ liveCodes d ->
                       c ∈ (disponivel :: propCodes p ++ liveCodes d)%list).
  { intros c Hc. rewrite app_comm_cons. apply elem_of_app. by right. }
  unfold covers, mount, effect. cbn [props].
  destruct (isOpen p); simpl; (split; [done | split; [by left | done]]).
Qed.

Lemma step_covered (K : list string) (st : State) (ev : Event) :
  covers K st ->
  covers (K ++ eventCodes ev)%list (fst (step schema st ev)).
Proof.
  intros Hcov.
  pose proof (covers_more K (eventCodes ev) st Hcov) as Hmore.
  destruct ev as [p | d | f v | i | | |]; simpl.
  - unfold rerender, effect.
    destruct (depsChanged (props st) p); simpl; [| done].
    destruct (isOpen p); simpl; [| done].
    destruct Hmore as (_ & Hdisp & Hlive).
    split; [| done].
    destruct Hcov as (_ & Hd & _).
    pose proof (activityValue_known p) as [-> | Hact]%elem_of_cons.
    + done.
    + apply elem_of_app. by right.
  - destruct Hmore as (Hsel & Hdisp & _).
    repeat split; try done.
    intros c Hc. apply elem_of_app. by right.
  - by destruct (isOpen (props st)).
  - destruct (isOpen (props st)); simpl; [| done].
    destruct (selectItems (data st) !! i) as [item |] eqn:Hi; simpl; [| done].
    destruct Hmore as (_ & Hdisp & Hlive).
    split; [| done].
    apply selectItems_lookup in Hi as [-> | Hin]%elem_of_cons; [done |].
    by apply Hlive.
  - destruct (isOpen (props st)); simpl; [| done].
    destruct (handleSubmit_keeps_draft schema st) as (_ & Hdata & _ & Hsel).
    by apply (covers_same _ st).
  - by destruct (isOpen (props st)).
  - by destruct (isOpen (props st)).
Qed.

Lemma step_saves_selected (st : State) (ev : Event) (payload : Form.t) :
  onSave payload ∈ snd (step schema st ev) ->
  Form.activityCode payload = selectedActivity st.
Proof.
  assert (Hnil : onSave payload ∈ @nil Call ->
                 Form.activityCode payload = selectedActivity st)
    by by intros ?%elem_of_nil.
  assert (Hclose : onSave payload ∈ [onClose] ->
                   Form.activityCode payload = selectedActivity st).
  { intros Hin%list_elem_of_singleton. discriminate. }
  destruct ev as [p | d | f v | i | | |]; simpl; try done.
  - by destruct (isOpen (props st)).
  - destruct (isOpen (props st)); [| done].
    by destruct (selectItems (data st) !! i).
  - destruct (isOpen (props st)); [| done].
    destruct (handleSubmit_calls schema st) as [-> | [parsed ->]]; [done |].
    intros [Heq | Hin]%elem_of_cons; [by inversion Heq | by apply Hclose].
  - by destruct (isOpen (props st)).
  - by destruct (isOpen (props st)).
Qed.

Lemma run_saves_known (evs : list Event) (K : list string) (st : State)
    (payload : Form.t) :
  covers K st ->
  onSave payload ∈ snd (run schema st evs) ->
  Form.activityCode payload ∈ (K ++ flat_map eventCodes evs)%list.
Proof.
  revert K st. induction evs as [| ev evs IH]; intros K st Hcov.
  - simpl. by intros ?%elem_of_nil.
  - rewrite run_cons. simpl. intros [Hnow | Hlater]%elem_of_app.
    + apply step_saves_selected in Hnow. rewrite Hnow.
      destruct Hcov as (Hsel & _). apply elem_of_app. by left.
    + rewrite app_assoc. eapply IH; [| exact Hlater].
      by apply step_covered.
Qed.

End Provenance.

(** C5, amended.  The activity code handed to [onSave] is the
    sentinel "disponivel", or the [atividade] of a [currentActivity] the
    caller passed in during the session, or the code of an activity type
    the lookup delivered at some time of the session; it is not checked
    against the activity types on offer when the form is submitted. *)
Theorem saved_code_is_known
    (schema : Schema) (p : Props) (d : QueryData) (evs : list Event)
    (payload : Form.t) :
  onSave payload ∈ calls schema p d evs ->
  Form.activityCode payload ∈ knownCodes p d evs.
Proof.
  intros Hin. unfold knownCodes.
  rewrite app_comm_cons, app_assoc, <- app_comm_cons.
  eapply run_saves_known; [apply mount_covered | exact Hin].
Qed.

Lemma saved_code_is_known_witness :
  Form.activityCode (Form.mk 7 "quarta" "14:15" "15:45" "aula" "" "")
  ∈ knownCodes Sample.props JUndefined
               [QueryResult (JArray [Sample.aula]); Select 1;
                QueryResult JUndefined; Submit].
Proof.
  apply (saved_code_is_known (scheduleFormSchema Sample.rules)
           Sample.props JUndefined
           [QueryResult (JArray [Sample.aula]); Select 1;
            QueryResult JUndefined; Submit]
           (Form.mk 7 "quarta" "14:15" "15:45" "aula" "" "")).
  vm_compute. apply list_elem_of_here.
Defined.

(** Counterexample to C5 as first stated.  The dialog is opened on an entry
    whose activity is "consulta" while the lookup offers "aula" only, and
    is submitted as it is: [onSave] receives "consulta", which is neither
    the sentinel nor a code on offer. *)
Lemma saved_code_not_among_live_options :
  snd (step (scheduleFormSchema Sample.rules)
            (mount Sample.propsConsulta (JArray [Sample.aula])) Submit)
  = [onSave (Form.mk 7 "quarta" "14:15" "15:45" "consulta" "Room 2" "");
     onClose]
  ∧ liveCodes (data (mount Sample.propsConsulta (JArray [Sample.aula]))) = ["aula"]
  ∧ "consulta" ≠ disponivel
  ∧ "consulta" ∉ liveCodes (data (mount Sample.propsConsulta (JArray [Sample.aula]))).
Proof.
  split; [reflexivity |]. split; [reflexivity |]. split; [discriminate |].
  change (liveCodes (data (mount Sample.propsConsulta (JArray [Sample.aula]))))
    with ["aula"].
  intros Hin%list_elem_of_singleton. discriminate.
Qed.

(** ** The [isNew] flag *)

Lemma depsChanged_same (p p' q q' : Props) :
  sameButIsNew p p' -> sameButIsNew q q' ->
  depsChanged p q = depsChanged p' q'.
Proof.
  intros (H1 & H2 & H3 & H4 & H5) (K1 & K2 & K3 & K4 & K5).
  unfold depsChanged. by rewrite H1, H2, H3, H4, H5, K1, K2, K3, K4, K5.
Qed.

Lemma activityValue_same (p q : Props) :
  sameButIsNew p q -> activityValue p = activityValue q.
Proof. intros (_ & _ & _ & H & _). unfold activityValue. by rewrite H. Qed.

Lemma resetValues_same (p q : Props) :
  sameButIsNew p q -> resetValues p = resetValues q.
Proof.
  intros (H1 & H2 & H3 & H4 & H5). unfold resetValues, activityValue.
  by rewrite H2, H3, H4, H5.
Qed.

Lemma sameState_refl_event (s t : State) :
  sameState s t -> isOpen (props s) = isOpen (props t).
Proof. by intros ((H & _) & _). Qed.

Lemma effect_same (s t : State) :
  sameState s t -> sameState (effect s) (effect t).
Proof.
  intros Hst. pose proof Hst as (Hp & Hd & Hsel & Hv & He & Hsub).
  unfold effect. rewrite <- (sameState_refl_event _ _ Hst).
  destruct (isOpen (props s)); [| done].
  unfold sameState. simpl.
  by rewrite (activityValue_same _ _ Hp), (resetValues_same _ _ Hp), Hd.
Qed.

Lemma mount_same (p q : Props) (d : QueryData) :
  sameButIsNew p q -> sameState (mount p d) (mount q d).
Proof.
  intros Hpq. unfold mount. apply effect_same.
  unfold sameState. simpl.
  rewrite (activityValue_same _ _ Hpq).
  rewrite <- !resetValues_defaultValues, (resetValues_same _ _ Hpq).
  done.
Qed.

Lemma rerender_same (s t : State) (p q : Props) :
  sameState s t -> sameButIsNew p q ->
  sameState (rerender p s) (rerender q t).
Proof.
  intros Hst Hpq. pose proof Hst as (Hp & Hd & Hsel & Hv & He & Hsub).
  assert (Hset : sameState (setProps p s) (setProps q t)) by done.
  unfold rerender. rewrite (depsChanged_same _ _ _ _ Hp Hpq).
  destruct (depsChanged (props t) q); [by apply effect_same | done].
Qed.

Lemma sameButIsNew_refl (p : Props) : sameButIsNew p p.
Proof. done. Qed.

Lemma render_same (s t : State) (x : string) :
  sameState s t -> withTitle x (render s) = withTitle x (render t).
Proof.
  intros ((H1 & H2 & H3 & H4 & H5) & Hd & Hsel & Hv & He & Hsub).
  unfold withTitle, render. simpl.
  by rewrite H1, H2, Hd, Hsel, Hv, He.
Qed.

Section IsNew.

Variable schema : Schema.

Lemma handleSubmit_same (s t : State) :
sameState s t ->
sameState (fst (handleSubmit schema s)) (fst (handleSubmit schema t))
∧ snd (handleSubmit schema s) = snd (handleSubmit schema t).
Proof.
intros (Hp & Hd & Hsel & Hv & He & Hsub).
unfold handleSubmit, onSubmit. rewrite Hv, Hsel, Hd.
destruct (values (zodResolver schema (formValues t)));
  [destruct (bool_decide _) |]; by simpl.
Qed.

(** One event keeps two states the same but for [isNew], and makes the
  same calls in both. *)
Lemma step_same (s t : State) (ev ev' : Event) :
sameState s t -> sameEvent ev ev' ->
sameState (fst (step schema s ev)) (fst (step schema t ev'))
∧ snd (step schema s ev) = snd (step schema t ev').
Proof.
intros Hst Hev.
pose proof (sameState_refl_event _ _ Hst) as Hopen.
pose proof Hst as (Hp & Hd & Hsel & Hv & He & Hsub).
destruct Hev as [p q Hpq | ev].
{ simpl. split; [by apply rerender_same | done]. }
destruct ev as [p | d | f v | i | | |]; simpl; rewrite <- ?Hopen.
- split; [apply rerender_same; [done | apply sameButIsNew_refl] | done].
- done.
- destruct (isOpen (props s)); simpl; [| done].
  split; [| done]. unfold sameState, change. simpl.
  by rewrite Hd, Hsel, Hv, He, Hsub.
- rewrite Hd. destruct (isOpen (props s)); simpl; [| done].
  destruct (selectItems (data t) !! i); simpl; [| done].
  split; [| done]. unfold sameState. simpl. by rewrite Hv.
- destruct (isOpen (props s)); simpl; [| done].
  by apply handleSubmit_same.
- by destruct (isOpen (props s)).
- by destruct (isOpen (props s)).
Qed.

Lemma run_same (evs evs' : list Event) :
Forall2 sameEvent evs evs' ->
∀ s t : State,
  sameState s t ->
  sameState (fst (run schema s evs)) (fst (run schema t evs'))
  ∧ snd (run schema s evs) = snd (run schema t evs').
Proof.
induction 1 as [| ev ev' evs evs' Hev _ IH]; intros s t Hst; [done |].
rewrite !run_cons. simpl.
destruct (step_same s t ev ev' Hst Hev) as [Hnext Hout].
destruct (IH _ _ Hnext) as [Hlast Hrest].
by rewrite Hout, Hrest.
Qed.

End IsNew.

(** C9. Two runs of the dialog that differ in nothing but the value of
    [isNew] (at mount and at every later render) make the same calls of
    [onSave] and [onClose], with the same payloads and in the same order,
    and show the same view but for the title; the title is "Nova
    Atividade" when [isNew] is true and "Editar Horário" otherwise. *)
Theorem isNew_changes_the_title_only
    (schema : Schema) (p q : Props) (d : QueryData) (evs evs' : list Event) :
  sameButIsNew p q ->
  Forall2 sameEvent evs evs' ->
  calls schema p d evs = calls schema q d evs'
  ∧ withTitle "" (render (fst (run schema (mount p d) evs)))
    = withTitle "" (render (fst (run schema (mount q d) evs')))
  ∧ title (render (fst (run schema (mount p d) evs)))
    = (if isNewOrDefault (props (fst (run schema (mount p d) evs)))
       then "Nova Atividade" else "Editar Horário").
Proof.
  intros Hpq Hevs.
  destruct (run_same schema evs evs' Hevs _ _ (mount_same p q d Hpq))
    as [Hst Hout].
  split; [exact Hout |]. split; [by apply render_same | reflexivity].
Qed.

Lemma isNew_changes_the_title_only_witness :
  calls (scheduleFormSchema Sample.rules) Sample.props JUndefined
        [Change FNotes "trazer exames"; Render Sample.props; Submit]
  = calls (scheduleFormSchema Sample.rules) Sample.propsNew JUndefined
          [Change FNotes "trazer exames"; Render Sample.propsNew; Submit]
  ∧ withTitle ""
      (render (fst (run (scheduleFormSchema Sample.rules)
                        (mount Sample.props JUndefined)
                        [Change FNotes "trazer exames"; Render Sample.props;
                         Submit])))
    = withTitle ""
        (render (fst (run (scheduleFormSchema Sample.rules)
                          (mount Sample.propsNew JUndefined)
                          [Change FNotes "trazer exames"; Render Sample.propsNew;
                           Submit])))
  ∧ title (render (fst (run (scheduleFormSchema Sample.rules)
                            (mount Sample.props JUndefined)
                            [Change FNotes "trazer exames"; Render Sample.props;
                             Submit])))
    = (if isNewOrDefault
            (props (fst (run (scheduleFormSchema Sample.rules)
                             (mount Sample.props JUndefined)
                             [Change FNotes "trazer exames"; Render Sample.props;
                              Submit])))
       then "Nova Atividade" else "Editar Horário").
Proof.
  apply (isNew_changes_the_title_only (scheduleFormSchema Sample.rules)
           Sample.props Sample.propsNew JUndefined
           [Change FNotes "trazer exames"; Render Sample.props; Submit]
           [Change FNotes "trazer exames"; Render Sample.propsNew; Submit]).
  - repeat split.
  - repeat constructor.
Defined.

(** * Further properties *)

(** ** The calls of a run *)

Lemma countIf_app {A : Type} (f : A -> bool) (l k : list A) :
  countIf f (l ++ k)%list = countIf f l + countIf f k.
Proof. induction l as [| x l IH]; simpl; [done | rewrite IH; lia]. Qed.

Section Calls.

Variable schema : Schema.

(** What one event can call: nothing, [onClose] alone, or [onSave] and
    then [onClose]; the last only on a submission, the second only on
    Cancelar or a request to close. *)
Lemma step_calls (st : State) (ev : Event) :
  snd (step schema st ev) = []
  ∨ (snd (step schema st ev) = [onClose] ∧ asksToClose ev = true)
  ∨ (∃ payload, snd (step schema st ev) = [onSave payload; onClose])
    ∧ isSubmit ev = true.
Proof.
  destruct ev as [p | d | f v | i | | |]; simpl; try by left.
  - destruct (isOpen (props st)); by left.
  - destruct (isOpen (props st)); [| by left].
    destruct (selectItems (data st) !! i); by left.
  - destruct (isOpen (props st)); [| by left].
    destruct (handleSubmit_calls schema st) as [-> | [parsed ->]]; [by left |].
    right. right. split; [by eexists | done].
  - destruct (isOpen (props st)); [right; by left | by left].
  - destruct (isOpen (props st)); [right; by left | by left].
Qed.

Lemma step_counts (st : State) (ev : Event) :
  (countIf isSave (snd (step schema st ev)) ≤ (if isSubmit ev then 1 else 0))%nat
  ∧ (countIf isClose (snd (step schema st ev))
     ≤ (if asksToClose ev then 1 else 0))%nat.
Proof.
  destruct (step_calls st ev) as [-> | [[-> Hev] | [[payload ->] Hev]]]; simpl.
  - lia.
  - rewrite Hev. lia.
  - rewrite Hev. destruct ev; try done; simpl; lia.
Qed.

Lemma closedAfterSave_step (st : State) (ev : Event) (rest : list Call) :
  closedAfterSave (snd (step schema st ev) ++ rest)%list = closedAfterSave rest.
Proof.
  by destruct (step_calls st ev) as [-> | [[-> _] | [[payload ->] _]]].
Qed.

End Calls.

(** X1. In every run, [onSave] is called at most once for each
    submission and [onClose] at most once for each submission, Cancelar
    or request to close: no other event calls the parent, and a run
    without a submission never saves. *)
Theorem calls_are_bounded_by_events
    (schema : Schema) (p : Props) (d : QueryData) (evs : list Event) :
  (countIf isSave (calls schema p d evs) ≤ countIf isSubmit evs)%nat
  ∧ (countIf isClose (calls schema p d evs) ≤ countIf asksToClose evs)%nat.
Proof.
  unfold calls. generalize (mount p d) as st.
  induction evs as [| ev evs IH]; intros st; [simpl; lia |].
  rewrite run_cons. simpl. rewrite !countIf_app.
  destruct (step_counts schema st ev) as [Hs Hc].
  destruct (IH (fst (step schema st ev))) as [IHs IHc]. lia.
Qed.

(** X2. In every run, from any state, each call of [onSave] is followed
    at once by a call of [onClose]: the parent is never left with a save
    and no request to close. *)
Theorem every_save_is_followed_by_close
    (schema : Schema) (st : State) (evs : list Event) :
  closedAfterSave (snd (run schema st evs)) = true.
Proof.
  revert st. induction evs as [| ev evs IH]; intros st; [done |].
  rewrite run_cons. cbn [snd]. rewrite closedAfterSave_step. apply IH.
Qed.

(** ** When a render leaves the draft alone *)

Lemma depsChanged_none (old new : Props) :
  isOpen old = isOpen new ->
  objectIs (professional old) (professional new) = true ->
  objectIs (timeSlot old) (timeSlot new) = true ->
  objectIs (currentActivity old) (currentActivity new) = true ->
  weekday old = weekday new ->
  depsChanged old new = false.
Proof.
  intros Ho Hp Ht Hc Hw. unfold depsChanged.
  rewrite Ho, Hp, Ht, Hc, Hw, String.eqb_refl. by destruct (isOpen new).
Qed.

(** The effect does nothing for a dialog that is rendered closed. *)
Lemma rerender_closed (st : State) (p : Props) :
  isOpen p = false -> rerender p st = setProps p st.
Proof.
  intros Hclosed. unfold rerender.
  destruct (depsChanged (props st) p); [| done].
  unfold effect. cbn [props setProps]. by rewrite Hclosed.
Qed.

(** X3. A render leaves the draft as it is (the stored values, the
    selected activity, the errors) when the dialog is rendered closed,
    whatever props changed, and when no dependency of the effect changed:
    [isOpen] and [weekday] equal, the three objects the same objects.
    Their fields and [isNew] may differ: an object changed in place does
    not refresh the draft.  The render calls nothing. *)
Theorem render_without_reset_keeps_draft
    (schema : Schema) (st : State) (p : Props) :
  isOpen p = false
  ∨ (isOpen (props st) = isOpen p
     ∧ objectIs (professional (props st)) (professional p) = true
     ∧ objectIs (timeSlot (props st)) (timeSlot p) = true
     ∧ objectIs (currentActivity (props st)) (currentActivity p) = true
     ∧ weekday (props st) = weekday p) ->
  fst (step schema st (Render p))
  = mkState p (data st) (selectedActivity st) (formValues st) (errors st)
            (isSubmitted st)
  ∧ snd (step schema st (Render p)) = [].
Proof.
  intros Hkeep. split; [| reflexivity].
  simpl. destruct Hkeep as [Hclosed | (Ho & Hp & Ht & Hc & Hw)].
  - by apply rerender_closed.
  - unfold rerender. by rewrite depsChanged_none.
Qed.

Lemma render_without_reset_keeps_draft_witness :
  fst (step (scheduleFormSchema Sample.rules) Sample.cleared
            (Render Cases.propsMutated))
  = mkState Cases.propsMutated (data Sample.cleared)
            (selectedActivity Sample.cleared) (formValues Sample.cleared)
            (errors Sample.cleared) (isSubmitted Sample.cleared)
  ∧ snd (step (scheduleFormSchema Sample.rules) Sample.cleared
              (Render Cases.propsMutated)) = [].
Proof.
  apply (render_without_reset_keeps_draft (scheduleFormSchema Sample.rules)
           Sample.cleared Cases.propsMutated).
  right. repeat split.
Defined.

Lemma mount_draft_default (p : Props) (d : QueryData) :
  mount p d = mkState p d (activityValue p) (defaultValues p) ∅ false.
Proof. unfold mount, effect. cbn [props]. by destruct (isOpen p). Qed.

(** X4. The object handed to [reset] by the effect is, for all props,
    the [defaultValues] of [useForm], and the activity it selects is the
    initial state of [selectedActivity]: the effect that runs at mount
    changes nothing, and the dialog starts from the same draft whether it
    is mounted open or closed. *)
Theorem mount_draft_is_the_default (p : Props) (d : QueryData) :
  resetValues p = defaultValues p
  ∧ Form.activityCode (defaultValues p) = activityValue p
  ∧ mount p d = mkState p d (activityValue p) (defaultValues p) ∅ false.
Proof.
  split; [reflexivity |]. split; [reflexivity |].
  apply mount_draft_default.
Qed.

(** X5. The cancel path, end to end.  From an open dialog, Cancelar (or
    the dialog's request to close) calls [onClose] once and saves
    nothing; when the parent then renders the dialog closed and later
    open again, the draft is the one of the props of that last render:
    what the user had typed before cancelling is gone, whichever props
    are passed. *)
Theorem cancel_then_reopen_starts_afresh
    (schema : Schema) (st : State) (closing opening : Props) (ev : Event) :
  ev = Cancel ∨ ev = Dismiss ->
  isOpen (props st) = true ->
  isOpen closing = false ->
  isOpen opening = true ->
  run schema st [ev; Render closing; Render opening]
  = (mkState opening (data st) (activityValue opening) (resetValues opening)
             ∅ false,
     [onClose]).
Proof.
  intros Hev Hopen Hclosing Hopening.
  assert (Hstep : step schema st ev = (st, [onClose])).
  { destruct Hev as [-> | ->]; simpl; by rewrite Hopen. }
  rewrite !run_cons, Hstep. cbn [fst snd run step].
  rewrite (rerender_closed _ _ Hclosing).
  rewrite rerender_reset; [done | done |].
  by apply depsChanged_opening.
Qed.

Lemma cancel_then_reopen_starts_afresh_witness :
  run (scheduleFormSchema Sample.rules) Sample.cleared
      [Cancel; Render Cases.propsClosed; Render Sample.props]
  = (mkState Sample.props (data Sample.cleared) (activityValue Sample.props)
             (resetValues Sample.props) ∅ false,
     [onClose]).
Proof.
  apply (cancel_then_reopen_starts_afresh (scheduleFormSchema Sample.rules)
           Sample.cleared Cases.propsClosed Sample.props Cancel).
  - by left.
  - reflexivity.
  - reflexivity.
  - reflexivity.
Defined.

(** ** The selected activity is never empty *)

Lemma activityValue_nonempty (p : Props) : activityValue p ≠ "".
Proof.
  unfold activityValue, orStr.
  destruct (optChain (currentActivity p) CurrentActivity.atividade) as [s |];
    [| done].
  destruct (String.eqb_spec s ""); done.
Qed.

Section NonEmpty.

Variable schema : Schema.

Lemma step_selected_nonempty (st : State) (ev : Event) :
  "" ∉ offeredCodes ev ->
  selectedActivity st ≠ "" ∧ "" ∉ liveCodes (data st) ->
  selectedActivity (fst (step schema st ev)) ≠ ""
  ∧ "" ∉ liveCodes (data (fst (step schema st ev))).
Proof.
  intros Hev [Hsel Hlive].
  destruct ev as [p | d | f v | i | | |]; simpl.
  - unfold rerender, effect.
    destruct (depsChanged (props st) p); simpl; [| done].
    destruct (isOpen p); simpl; [| done].
    split; [apply activityValue_nonempty | done].
  - done.
  - by destruct (isOpen (props st)).
  - destruct (isOpen (props st)); simpl; [| done].
    destruct (selectItems (data st) !! i) as [item |] eqn:Hi; simpl; [| done].
    split; [| done].
    apply selectItems_lookup in Hi as [-> | Hin]%elem_of_cons; [done |].
    intros Heq. by rewrite Heq in Hin.
  - destruct (isOpen (props st)); simpl; [| done].
    by destruct (handleSubmit_keeps_draft schema st) as (_ & -> & _ & ->).
  - by destruct (isOpen (props st)).
  - by destruct (isOpen (props st)).
Qed.

Lemma run_selected_nonempty (evs : list Event) (st : State) :
  Forall (fun ev => "" ∉ offeredCodes ev) evs ->
  selectedActivity st ≠ "" ∧ "" ∉ liveCodes (data st) ->
  selectedActivity (fst (run schema st evs)) ≠ "".
Proof.
  intros Hevs. revert st.
  induction Hevs as [| ev evs Hev _ IH]; intros st Hst; [by destruct Hst |].
  rewrite run_cons. simpl. by apply IH, step_selected_nonempty.
Qed.

End NonEmpty.

(** X6. As long as the lookup delivers no activity type with an empty
    code, the selected activity is never empty, and neither is the stored
    [activityCode]: an empty or absent [atividade] becomes "disponivel"
    at every reset, and the user can only pick what is on offer.  So the
    form never submits an empty activity code. *)
Theorem selected_activity_is_never_empty
    (schema : Schema) (p : Props) (d : QueryData) (evs : list Event) :
  "" ∉ liveCodes d ->
  Forall (fun ev => "" ∉ offeredCodes ev) evs ->
  selectedActivity (fst (run schema (mount p d) evs)) ≠ ""
  ∧ Form.activityCode (formValues (fst (run schema (mount p d) evs))) ≠ ""
  ∧ ∀ payload,
      onSave payload ∈ snd (step schema (fst (run schema (mount p d) evs)) Submit) ->
      Form.activityCode payload ≠ "".
Proof.
  intros Hd Hevs.
  assert (Hsel : selectedActivity (fst (run schema (mount p d) evs)) ≠ "").
  { apply run_selected_nonempty; [done |].
    unfold mount, effect. cbn [props].
    destruct (isOpen p); simpl; (split; [apply activityValue_nonempty | done]). }
  split; [done |]. split.
  - by rewrite (run_in_sync schema evs _ (mount_in_sync p d)).
  - intros payload Hin. by rewrite (step_saves_selected _ _ _ _ Hin).
Qed.

Lemma selected_activity_is_never_empty_witness :
  selectedActivity
    (fst (run (scheduleFormSchema Sample.rules)
              (mount Sample.props (JArray [Sample.aula]))
              [Select 1; QueryResult JUndefined; Render Sample.propsConsulta]))
  ≠ ""
  ∧ Form.activityCode
      (formValues
         (fst (run (scheduleFormSchema Sample.rules)
                   (mount Sample.props (JArray [Sample.aula]))
                   [Select 1; QueryResult JUndefined;
                    Render Sample.propsConsulta])))
    ≠ ""
  ∧ ∀ payload,
      onSave payload
      ∈ snd (step (scheduleFormSchema Sample.rules)
                  (fst (run (scheduleFormSchema Sample.rules)
                            (mount Sample.props (JArray [Sample.aula]))
                            [Select 1; QueryResult JUndefined;
                             Render Sample.propsConsulta])) Submit) ->
      Form.activityCode payload ≠ "".
Proof.
  apply (selected_activity_is_never_empty (scheduleFormSchema Sample.rules)
           Sample.props (JArray [Sample.aula])
           [Select 1; QueryResult JUndefined; Render Sample.propsConsulta]).
  - simpl. intros Hin%list_elem_of_singleton. discriminate.
  - repeat constructor; simpl; apply not_elem_of_nil.
Defined.

(** ** What is saved is the draft *)

Lemma withActivityCode_same (v : Form.t) :
  Form.withActivityCode v (Form.activityCode v) = v.
Proof. by destruct v. Qed.

(** X7. In every state the dialog can reach, when the schema accepts the
    draft and returns it as it is, the payload of [onSave] is the stored
    draft itself, every field of it: what the user typed reaches the
    parent, and overwriting [activityCode] with the selected activity
    changes nothing. *)
Theorem saved_payload_is_the_draft
    (schema : Schema) (p : Props) (d : QueryData) (evs : list Event) :
  isOpen (props (fst (run schema (mount p d) evs))) = true ->
  schema (formValues (fst (run schema (mount p d) evs)))
  = Success (formValues (fst (run schema (mount p d) evs))) ->
  snd (step schema (fst (run schema (mount p d) evs)) Submit)
  = [onSave (formValues (fst (run schema (mount p d) evs))); onClose].
Proof.
  intros Hopen Hok. simpl. rewrite Hopen.
  rewrite (handleSubmit_success _ _ _ Hok). unfold onSubmit.
  rewrite <- (run_in_sync schema evs _ (mount_in_sync p d)).
  by rewrite withActivityCode_same.
Qed.

Lemma saved_payload_is_the_draft_witness :
  snd (step (scheduleFormSchema Sample.rules)
            (fst (run (scheduleFormSchema Sample.rules)
                      (mount Sample.propsConsulta JUndefined)
                      [Change FEndTime "16:00"])) Submit)
  = [onSave (formValues
               (fst (run (scheduleFormSchema Sample.rules)
                         (mount Sample.propsConsulta JUndefined)
                         [Change FEndTime "16:00"])));
     onClose].
Proof.
  apply (saved_payload_is_the_draft (scheduleFormSchema Sample.rules)
           Sample.propsConsulta JUndefined [Change FEndTime "16:00"]).
  - reflexivity.
  - reflexivity.
Defined.

(** ** Errors the form does not show *)

Lemma toFieldErrors_absent (issues : list ZodIssue) (k : string) :
  Forall (fun issue => path issue ≠ k) issues ->
  toFieldErrors issues !! k = None.
Proof.
  induction 1 as [| issue issues Hne _ IH]; simpl; [apply lookup_empty |].
  by rewrite lookup_insert_ne.
Qed.

(** X8. When the schema refuses the draft for fields other than the
    start time, the end time and the activity code (the professional id
    or the weekday, which come from the props), the submission calls
    nothing and the form shows no message at all: the three paragraphs it
    renders stay empty and the dialog stays open. *)
Theorem refusal_on_hidden_fields_is_silent
    (schema : Schema) (st : State) (issue : ZodIssue) (issues : list ZodIssue) :
  isOpen (props st) = true ->
  schema (formValues st) = Failure issue issues ->
  Forall (fun i => path i ∉ shownPaths) (issue :: issues) ->
  snd (step schema st Submit) = []
  ∧ startTimeError (render (fst (step schema st Submit))) = None
  ∧ endTimeError (render (fst (step schema st Submit))) = None
  ∧ activityCodeError (render (fst (step schema st Submit))) = None
  ∧ dialogOpen (render (fst (step schema st Submit))) = true.
Proof.
  intros Hopen Hko Hpaths.
  assert (Habsent : ∀ k, k ∈ shownPaths ->
                         toFieldErrors (issue :: issues) !! k = None).
  { intros k Hk. apply toFieldErrors_absent.
    eapply Forall_impl; [exact Hpaths |].
    intros i Hi Heq. apply Hi. by rewrite Heq. }
  simpl. rewrite Hopen. unfold handleSubmit, zodResolver. rewrite Hko. simpl.
  rewrite Hopen.
  repeat split; try done; apply Habsent; unfold shownPaths;
    repeat first [apply list_elem_of_here | apply list_elem_of_further].
Qed.

Lemma refusal_on_hidden_fields_is_silent_witness :
  snd (step (scheduleFormSchema Sample.rules)
            (mount Sample.propsNobody JUndefined) Submit) = []
  ∧ startTimeError
      (render (fst (step (scheduleFormSchema Sample.rules)
                         (mount Sample.propsNobody JUndefined) Submit))) = None
  ∧ endTimeError
      (render (fst (step (scheduleFormSchema Sample.rules)
                         (mount Sample.propsNobody JUndefined) Submit))) = None
  ∧ activityCodeError
      (render (fst (step (scheduleFormSchema Sample.rules)
                         (mount Sample.propsNobody JUndefined) Submit))) = None
  ∧ dialogOpen
      (render (fst (step (scheduleFormSchema Sample.rules)
                         (mount Sample.propsNobody JUndefined) Submit))) = true.
Proof.
  apply (refusal_on_hidden_fields_is_silent (scheduleFormSchema Sample.rules)
           (mount Sample.propsNobody JUndefined)
           (mkIssue "professionalId" (messageOf Sample.rules "professionalId"))
           []).
  - reflexivity.
  - reflexivity.
  - constructor; [| constructor].
    simpl. unfold shownPaths.
    intros Hin. repeat (apply elem_of_cons in Hin as [Hin | Hin]; [discriminate |]).
    by apply elem_of_nil in Hin.
Defined.

(** ** Submitting again *)

(** X9. Nothing in the component stops a second submission: while the
    parent has not rendered the dialog again, submitting twice makes the
    calls of one submission twice, with the same payload, and leaves the
    state of one submission. *)
Theorem second_submission_repeats_the_first (schema : Schema) (st : State) :
  run schema st [Submit; Submit]
  = (fst (step schema st Submit),
     (snd (step schema st Submit) ++ snd (step schema st Submit))%list).
Proof.
  rewrite run_cons, run_one. simpl.
  destruct (isOpen (props st)) eqn:Hopen; simpl; [| by rewrite Hopen].
  unfold handleSubmit.
  destruct (values (zodResolver schema (formValues st))) as [parsed |] eqn:Hv;
    [destruct (bool_decide _) eqn:Hb |]; simpl; rewrite Hopen; simpl;
    rewrite ?Hv, ?Hb; reflexivity.
Qed.

(** ** What the user cannot edit *)

Lemma setField_weekday (f : Field) (v : string) (d : Form.t) :
  Form.weekday (setField f v d) = Form.weekday d.
Proof. by destruct f. Qed.

(** X10. No event that comes from the user (typing, selecting,
    submitting, Cancelar, closing) changes the professional id or the
    weekday of the draft, nor the props and the data of the lookup: the
    two hidden fields hold what the last reset wrote. *)
Theorem user_events_keep_hidden_fields
    (schema : Schema) (st : State) (evs : list Event) :
  Forall (fun ev => isUserEvent ev = true) evs ->
  Form.professionalId (formValues (fst (run schema st evs)))
  = Form.professionalId (formValues st)
  ∧ Form.weekday (formValues (fst (run schema st evs)))
    = Form.weekday (formValues st)
  ∧ props (fst (run schema st evs)) = props st
  ∧ data (fst (run schema st evs)) = data st.
Proof.
  intros Hevs. revert st.
  induction Hevs as [| ev evs Hev _ IH]; intros st; [done |].
  rewrite run_cons. cbn [fst].
  destruct (IH (fst (step schema st ev))) as (-> & -> & -> & ->).
  destruct ev as [p | d | f v | i | | |]; try discriminate; simpl.
  - destruct (isOpen (props st)); simpl; [| done].
    by rewrite setField_professionalId, setField_weekday.
  - destruct (isOpen (props st)); simpl; [| done].
    by destruct (selectItems (data st) !! i).
  - destruct (isOpen (props st)); simpl; [| done].
    by destruct (handleSubmit_keeps_draft schema st) as (-> & -> & -> & _).
  - by destruct (isOpen (props st)).
  - by destruct (isOpen (props st)).
Qed.

Lemma user_events_keep_hidden_fields_witness :
  Form.professionalId
    (formValues (fst (run (scheduleFormSchema Sample.rules) Sample.opened
                          [Change FStartTime "09:00"; Select 0; Submit; Cancel])))
  = Form.professionalId (formValues Sample.opened)
  ∧ Form.weekday
      (formValues (fst (run (scheduleFormSchema Sample.rules) Sample.opened
                            [Change FStartTime "09:00"; Select 0; Submit; Cancel])))
    = Form.weekday (formValues Sample.opened)
  ∧ props (fst (run (scheduleFormSchema Sample.rules) Sample.opened
                    [Change FStartTime "09:00"; Select 0; Submit; Cancel]))
    = props Sample.opened
  ∧ data (fst (run (scheduleFormSchema Sample.rules) Sample.opened
                   [Change FStartTime "09:00"; Select 0; Submit; Cancel]))
    = data Sample.opened.
Proof.
  apply (user_events_keep_hidden_fields (scheduleFormSchema Sample.rules)
           Sample.opened
           [Change FStartTime "09:00"; Select 0; Submit; Cancel]).
  repeat constructor.
Defined.

(** ** The hidden fields and the props *)

Section Hidden.

Variable schema : Schema.

Lemma step_weekday_of_props (st : State) (ev : Event) :
  (isOpen (props st) = true -> Form.weekday (formValues st) = weekday (props st)) ->
  isOpen (props (fst (step schema st ev))) = true ->
  Form.weekday (formValues (fst (step schema st ev)))
  = weekday (props (fst (step schema st ev))).
Proof.
  intros IH. destruct ev as [p | d | f v | i | | |]; simpl.
  - unfold rerender.
    destruct (depsChanged (props st) p) eqn:Hdeps.
    + unfold effect. cbn [props setProps].
      destruct (isOpen p) eqn:Hopen; simpl; [done | congruence].
    + simpl. intros Hopen.
      apply depsChanged_false in Hdeps as (Ho & _ & _ & _ & <-).
      apply IH. congruence.
  - exact IH.
  - destruct (isOpen (props st)) eqn:Hopen; simpl; [| congruence].
    rewrite setField_weekday. intros _. by apply IH.
  - destruct (isOpen (props st)) eqn:Hopen; simpl; [| congruence].
    destruct (selectItems (data st) !! i); simpl; intros _; by apply IH.
  - destruct (isOpen (props st)) eqn:Hopen; simpl; [| congruence].
    destruct (handleSubmit_keeps_draft schema st) as (-> & _ & -> & _).
    intros _. by apply IH.
  - destruct (isOpen (props st)) eqn:Hopen; simpl; [| congruence].
    intros _. by apply IH.
  - destruct (isOpen (props st)) eqn:Hopen; simpl; [| congruence].
    intros _. by apply IH.
Qed.

Lemma step_props (st : State) (ev : Event) :
  props (fst (step schema st ev))
  = match ev with
    | Render p => p
    | _ => props st
    end.
Proof.
  destruct ev as [p | d | f v | i | | |]; simpl.
  - unfold rerender, effect.
    destruct (depsChanged (props st) p); simpl; [| done].
    by destruct (isOpen p).
  - done.
  - by destruct (isOpen (props st)).
  - destruct (isOpen (props st)); [| done].
    by destruct (selectItems (data st) !! i).
  - destruct (isOpen (props st)); [| done].
    by destruct (handleSubmit_keeps_draft schema st) as (-> & _).
  - by destruct (isOpen (props st)).
  - by destruct (isOpen (props st)).
Qed.

Lemma step_professional_of_props (st : State) (ev : Event) :
  professionalsUnchanged (props st :: rendered [ev]) ->
  (isOpen (props st) = true ->
   Form.professionalId (formValues st)
   = orNum (optChain (professional (props st)) Professional.id) 0) ->
  isOpen (props (fst (step schema st ev))) = true ->
  Form.professionalId (formValues (fst (step schema st ev)))
  = orNum (optChain (professional (props (fst (step schema st ev))))
                    Professional.id) 0.
Proof.
  intros Hsame IH. destruct ev as [p | d | f v | i | | |]; simpl.
  - unfold rerender.
    destruct (depsChanged (props st) p) eqn:Hdeps.
    + unfold effect. cbn [props setProps].
      destruct (isOpen p) eqn:Hopen; simpl; [done | congruence].
    + simpl. intros Hopen.
      apply depsChanged_false in Hdeps as (Ho & Hprof & _).
      rewrite <- (Hsame (props st) p); [apply IH; congruence | | | done].
      * apply list_elem_of_here.
      * simpl. apply list_elem_of_further, list_elem_of_here.
  - exact IH.
  - destruct (isOpen (props st)) eqn:Hopen; simpl; [| congruence].
    rewrite setField_professionalId. intros _. by apply IH.
  - destruct (isOpen (props st)) eqn:Hopen; simpl; [| congruence].
    destruct (selectItems (data st) !! i); simpl; intros _; by apply IH.
  - destruct (isOpen (props st)) eqn:Hopen; simpl; [| congruence].
    destruct (handleSubmit_keeps_draft schema st) as (-> & _ & -> & _).
    intros _. by apply IH.
  - destruct (isOpen (props st)) eqn:Hopen; simpl; [| congruence].
    intros _. by apply IH.
  - destruct (isOpen (props st)) eqn:Hopen; simpl; [| congruence].
    intros _. by apply IH.
Qed.

Lemma professionalsUnchanged_sub (ps qs : list Props) :
  (∀ q, q ∈ qs -> q ∈ ps) ->
  professionalsUnchanged ps -> professionalsUnchanged qs.
Proof. intros Hsub Hps q q' Hq Hq'. apply Hps; by apply Hsub. Qed.

Lemma run_professional_of_props (evs : list Event) (st : State) :
  professionalsUnchanged (props st :: rendered evs) ->
  (isOpen (props st) = true ->
   Form.professionalId (formValues st)
   = orNum (optChain (professional (props st)) Professional.id) 0) ->
  isOpen (props (fst (run schema st evs))) = true ->
  Form.professionalId (formValues (fst (run schema st evs)))
  = orNum (optChain (professional (props (fst (run schema st evs))))
                    Professional.id) 0.
Proof.
  revert st. induction evs as [| ev evs IH]; intros st Hsame Hst; [done |].
  rewrite run_cons. cbn [fst]. apply IH.
  - rewrite step_props.
    eapply professionalsUnchanged_sub; [| exact Hsame].
    intros q. destruct ev; simpl; rewrite ?elem_of_cons; tauto.
  - apply step_professional_of_props; [| done].
    eapply professionalsUnchanged_sub; [| exact Hsame].
    intros q. destruct ev; simpl; rewrite ?elem_of_cons, ?elem_of_nil; tauto.
Qed.

End Hidden.

(** X11. While the dialog is open, the weekday of the draft is the
    weekday of the current props, in every state the dialog can reach:
    the effect compares [weekday] by value, so the hidden field never
    lags behind the prop. *)
Theorem open_dialog_has_the_weekday_of_its_props
    (schema : Schema) (p : Props) (d : QueryData) (evs : list Event) :
  isOpen (props (fst (run schema (mount p d) evs))) = true ->
  Form.weekday (formValues (fst (run schema (mount p d) evs)))
  = weekday (props (fst (run schema (mount p d) evs))).
Proof.
  generalize (mount p d) (mount_draft_default p d). intros st0 Hst0.
  assert (H0 : isOpen (props st0) = true ->
               Form.weekday (formValues st0) = weekday (props st0))
    by by rewrite Hst0.
  clear Hst0. revert st0 H0.
  induction evs as [| ev evs IH]; intros st H0; [done |].
  rewrite run_cons. cbn [fst]. apply IH. by apply step_weekday_of_props.
Qed.

Lemma open_dialog_has_the_weekday_of_its_props_witness :
  Form.weekday
    (formValues (fst (run (scheduleFormSchema Sample.rules)
                          (mount Cases.propsClosed JUndefined)
                          [Render Sample.props; Change FNotes "x";
                           Render Cases.propsMutated])))
  = weekday (props (fst (run (scheduleFormSchema Sample.rules)
                             (mount Cases.propsClosed JUndefined)
                             [Render Sample.props; Change FNotes "x";
                              Render Cases.propsMutated]))).
Proof.
  apply (open_dialog_has_the_weekday_of_its_props
           (scheduleFormSchema Sample.rules) Cases.propsClosed JUndefined
           [Render Sample.props; Change FNotes "x"; Render Cases.propsMutated]).
  reflexivity.
Defined.

(** X12. When the parent never changes a professional object in place
    (two props of the run whose professional is the same object agree on
    its fields), the professional id of the draft of an open dialog is
    the one of the professional of the current props, 0 if there is
    none: the id that is saved belongs to the professional whose name the
    dialog shows. *)
Theorem open_dialog_has_the_professional_of_its_props
    (schema : Schema) (p : Props) (d : QueryData) (evs : list Event) :
  professionalsUnchanged (p :: rendered evs) ->
  isOpen (props (fst (run schema (mount p d) evs))) = true ->
  Form.professionalId (formValues (fst (run schema (mount p d) evs)))
  = orNum (optChain (professional (props (fst (run schema (mount p d) evs))))
                    Professional.id) 0
  ∧ shownNome (render (fst (run schema (mount p d) evs)))
    = optChain (professional (props (fst (run schema (mount p d) evs))))
               Professional.nome.
Proof.
  intros Hsame Hopen. split; [| reflexivity].
  apply run_professional_of_props; [| | done].
  - by rewrite mount_draft_default.
  - intros _. by rewrite mount_draft_default.
Qed.

Lemma open_dialog_has_the_professional_of_its_props_witness :
  Form.professionalId
    (formValues (fst (run (scheduleFormSchema Sample.rules)
                          (mount Sample.props JUndefined)
                          [Change FNotes "x"; Render Sample.propsNobody;
                           Render Sample.propsConsulta])))
  = orNum (optChain
             (professional
                (props (fst (run (scheduleFormSchema Sample.rules)
                                 (mount Sample.props JUndefined)
                                 [Change FNotes "x"; Render Sample.propsNobody;
                                  Render Sample.propsConsulta]))))
             Professional.id) 0
  ∧ shownNome
      (render (fst (run (scheduleFormSchema Sample.rules)
                        (mount Sample.props JUndefined)
                        [Change FNotes "x"; Render Sample.propsNobody;
                         Render Sample.propsConsulta])))
    = optChain
        (professional
           (props (fst (run (scheduleFormSchema Sample.rules)
                            (mount Sample.props JUndefined)
                            [Change FNotes "x"; Render Sample.propsNobody;
                             Render Sample.propsConsulta]))))
        Professional.nome.
Proof.
  apply (open_dialog_has_the_professional_of_its_props
           (scheduleFormSchema Sample.rules) Sample.props JUndefined
           [Change FNotes "x"; Render Sample.propsNobody;
            Render Sample.propsConsulta]).
  - intros q q' Hq Hq' Hsame. simpl in Hq, Hq'.
    repeat (apply elem_of_cons in Hq as [-> | Hq]);
      try (by apply elem_of_nil in Hq);
      repeat (apply elem_of_cons in Hq' as [-> | Hq']);
      try (by apply elem_of_nil in Hq');
      first [reflexivity | discriminate Hsame].
  - reflexivity.
Defined.

(** ** When messages appear *)

Section Messages.

Variable schema : Schema.

Lemma step_no_message (st : State) (ev : Event) :
  isSubmit ev = false ->
  errors st = ∅ ∧ isSubmitted st = false ->
  errors (fst (step schema st ev)) = ∅
  ∧ isSubmitted (fst (step schema st ev)) = false.
Proof.
  intros Hev [Herr Hsub].
  destruct ev as [p | d | f v | i | | |]; try discriminate; simpl.
  - unfold rerender, effect.
    destruct (depsChanged (props st) p); simpl; [| done].
    by destruct (isOpen p).
  - done.
  - destruct (isOpen (props st)); simpl; [| done]. by rewrite Hsub.
  - destruct (isOpen (props st)); simpl; [| done].
    by destruct (selectItems (data st) !! i).
  - by destruct (isOpen (props st)).
  - by destruct (isOpen (props st)).
Qed.

End Messages.

(** X13. Nothing is validated before the first submission: in a run
    with no submission, whatever the user typed or selected and whatever
    the schema would say of it, the form holds no error and shows no
    message under any field. *)
Theorem no_message_before_first_submission
    (schema : Schema) (p : Props) (d : QueryData) (evs : list Event) :
  Forall (fun ev => isSubmit ev = false) evs ->
  errors (fst (run schema (mount p d) evs)) = ∅
  ∧ startTimeError (render (fst (run schema (mount p d) evs))) = None
  ∧ endTimeError (render (fst (run schema (mount p d) evs))) = None
  ∧ activityCodeError (render (fst (run schema (mount p d) evs))) = None.
Proof.
  intros Hevs.
  assert (Hinv : errors (fst (run schema (mount p d) evs)) = ∅
                 ∧ isSubmitted (fst (run schema (mount p d) evs)) = false).
  { generalize (mount p d) (mount_draft_default p d). intros st0 Hst0.
    assert (H0 : errors st0 = ∅ ∧ isSubmitted st0 = false) by by rewrite Hst0.
    clear Hst0. revert st0 H0.
    induction Hevs as [| ev evs Hev _ IH]; intros st H0; [done |].
    rewrite run_cons. cbn [fst]. by apply IH, step_no_message. }
  destruct Hinv as [Herr _]. unfold render. cbn. rewrite Herr.
  by rewrite !lookup_empty.
Qed.

Lemma no_message_before_first_submission_witness :
  errors (fst (run (scheduleFormSchema Sample.rules)
                   (mount Sample.props JUndefined)
                   [Change FStartTime ""; Change FEndTime "late"; Cancel]))
  = ∅
  ∧ startTimeError
      (render (fst (run (scheduleFormSchema Sample.rules)
                        (mount Sample.props JUndefined)
                        [Change FStartTime ""; Change FEndTime "late"; Cancel])))
    = None
  ∧ endTimeError
      (render (fst (run (scheduleFormSchema Sample.rules)
                        (mount Sample.props JUndefined)
                        [Change FStartTime ""; Change FEndTime "late"; Cancel])))
    = None
  ∧ activityCodeError
      (render (fst (run (scheduleFormSchema Sample.rules)
                        (mount Sample.props JUndefined)
                        [Change FStartTime ""; Change FEndTime "late"; Cancel])))
    = None.
Proof.
  apply (no_message_before_first_submission (scheduleFormSchema Sample.rules)
           Sample.props JUndefined
           [Change FStartTime ""; Change FEndTime "late"; Cancel]).
  repeat constructor.
Defined.


